(** * Cafe REST API: the two Flask services over the SQLite table [cafe]

    The repository publishes one REST API twice: [cafe-api-sqlite3.py] talks
    to SQLite through the [sqlite3] module, [cafe-api-sqlalchemy.py] through
    the SQLAlchemy object-relational mapping.  Both serve

      - GET  /cafes         (get_cafes)
      - GET  /cafe/<name>   (get_cafe_by_name)
      - POST /add_cafe      (add_cafe)

    over the table whose DDL both files quote in their header.

    The handlers are embedded as functions from the committed table to a
    response and the committed table afterwards.  Python values, exceptions
    and the part of SQLite the handlers rely on (parameter binding, column
    affinity, NOT NULL and UNIQUE checks, rowid assignment, transactions)
    are written out below.  Two things stay parameters because neither file
    fixes them: how SQLite reads a TEXT value stored in a BOOLEAN column as a
    number ([numeric_text]) and the text [str(e)] of an exception
    ([str_exc]).  JSON numbers are integers here; fractional numbers and the
    REAL and BLOB storage classes are outside the model. *)

From stdpp Require Import gmap strings list fin_maps pretty.
From Stdlib Require Import ZArith Lia Sorted.

Set Warnings "-register-all,-clear-no-such-hyp".
Local Open Scope Z_scope.

(** ** Python values obtained from JSON, and JSON values sent back *)

(** [request.json] yields None, bool, int, str, list or dict; [jsonify]
    maps them back one to one. *)
Inductive json : Type :=
| JNull
| JBool (b : bool)
| JNum (n : Z)
| JStr (s : string)
| JArr (l : list json)
| JObj (m : gmap string json).

(** ** Exceptions *)

Inductive violation : Type :=
| NotNull (column : string)       (* NOT NULL constraint failed: cafe.column *)
| Unique (column : string).       (* UNIQUE constraint failed: cafe.column *)

Inductive exn : Type :=
| IntegrityError (v : violation)  (* sqlite3.IntegrityError *)
| OperationalError (msg : string) (* sqlite3.OperationalError: the file cannot be opened, read or written *)
| InterfaceError (i : nat)        (* sqlite3: parameter i has an unsupported type *)
| OverflowError (i : nat)         (* Python int too large to convert to SQLite INTEGER *)
| ProgrammingError                (* sqlite3: incorrect number of bindings supplied *)
| StatementError (column : string)(* SQLAlchemy: a bind processor rejected the value *)
| TypeError                       (* `in` or subscript on an object that has none *)
| KeyError (key : string)
| AttributeError.

Definition is_IntegrityError (e : exn) : bool :=
  match e with IntegrityError _ => true | _ => false end.

Inductive outcome (A : Type) : Type :=
| Return (a : A)
| Raise (e : exn).
Arguments Return {A} a.
Arguments Raise {A} e.

#[export] Instance outcome_ret : MRet outcome := fun A a => Return a.
#[export] Instance outcome_bind : MBind outcome := fun A B f c =>
  match c with Return a => f a | Raise e => Raise e end.

(** ** HTTP responses *)

Inductive response : Type :=
| Jsonify (status : Z) (j : json)              (* return jsonify(j), status *)
| Abort (status : Z) (description : string)    (* abort(status, description=...) *)
| Unhandled (e : exn).                         (* the exception leaves the view function *)

(** Flask answers an exception that leaves a view function with 500. *)
Definition status_code (r : response) : Z :=
  match r with
  | Jsonify s _ => s
  | Abort s _ => s
  | Unhandled _ => 500
  end.

(** ** Python operators used on the request body *)

(** [sub in s] on two strings. *)
Fixpoint contains (sub s : string) : bool :=
  String.prefix sub s ||
  match s with
  | EmptyString => false
  | String _ s' => contains sub s'
  end.

(** [key in obj] *)
Definition py_in (key : string) (obj : json) : outcome bool :=
  match obj with
  | JObj m => Return (bool_decide (is_Some (m !! key)))
  | JArr l => Return (existsb (fun x => match x with
                                        | JStr s => bool_decide (s = key)
                                        | _ => false
                                        end) l)
  | JStr s => Return (contains key s)
  | _ => Raise TypeError
  end.

(** [all(key in obj for key in keys)]: stops at the first False. *)
Fixpoint py_all_in (keys : list string) (obj : json) : outcome bool :=
  match keys with
  | [] => Return true
  | k :: ks => b ← py_in k obj; if b : bool then py_all_in ks obj else Return false
  end.

(** [obj[key]] *)
Definition subscript (obj : json) (key : string) : outcome json :=
  match obj with
  | JObj m => match m !! key with Some v => Return v | None => Raise (KeyError key) end
  | _ => Raise TypeError
  end.

(** [obj.get(key)] *)
Definition py_get (obj : json) (key : string) : outcome json :=
  match obj with
  | JObj m => Return (default JNull (m !! key))
  | _ => Raise AttributeError
  end.

Definition required_keys : list string :=
  ["name"; "map_url"; "img_url"; "location";
   "has_sockets"; "has_toilet"; "has_wifi"; "can_take_calls"].

(** ** The SQLite table [cafe] *)

Inductive sqlval : Type :=
| SqlNull
| SqlInt (n : Z)
| SqlText (s : string).

#[export] Instance sqlval_eq_dec : EqDecision sqlval.
Proof. solve_decision. Defined.

Module Row.
(** One row of

<<
    CREATE TABLE cafe (
      id INTEGER PRIMARY KEY,
      name VARCHAR(250) NOT NULL UNIQUE,
      map_url VARCHAR(500) NOT NULL,
      img_url VARCHAR(500) NOT NULL,
      location VARCHAR(250) NOT NULL,
      has_sockets BOOLEAN NOT NULL,
      has_toilet BOOLEAN NOT NULL,
      has_wifi BOOLEAN NOT NULL,
      can_take_calls BOOLEAN NOT NULL,
      seats VARCHAR(250),
      coffee_price VARCHAR(250));
>>
    SQLite types values, not columns, so every column but the rowid
    alias [id] holds an [sqlval]. *)
Record t : Type := mk {
  id : Z;
  name : sqlval;
  map_url : sqlval;
  img_url : sqlval;
  location : sqlval;
  has_sockets : sqlval;
  has_toilet : sqlval;
  has_wifi : sqlval;
  can_take_calls : sqlval;
  seats : sqlval;
  coffee_price : sqlval
}.
End Row.

(** The rows in rowid order. *)
Abbreviation table := (list Row.t).

(** The three statements the services send. *)
Inductive sql : Type :=
| SELECT_all           (* SELECT * FROM cafe *)
| SELECT_by_name       (* SELECT * FROM cafe WHERE name = ? *)
| INSERT_cafe.         (* INSERT INTO cafe (name, ..., coffee_price) VALUES (?, ..., ?) *)

(** A connection sees its own uncommitted changes in [view]; [disk] is the
    committed table. *)
Record connection : Type := { disk : table; view : table }.

(** [sqlite3.connect]; [fault] is the I/O failure of the environment, if
    any. *)
Definition sqlite3_connect (fault : option string) (db : table) : outcome connection :=
  match fault with
  | Some msg => Raise (OperationalError msg)
  | None => Return {| disk := db; view := db |}
  end.

Definition commit (conn : connection) : connection :=
  {| disk := view conn; view := view conn |}.

(** Closing drops what was not committed. *)
Definition close (conn : connection) : table := disk conn.

Definition int64 (n : Z) : bool := (- 2 ^ 63 <=? n) && (n <? 2 ^ 63).

(** How the [sqlite3] module binds the Python value of parameter [i]. *)
Definition bind_param (i : nat) (v : json) : outcome sqlval :=
  match v with
  | JNull => Return SqlNull
  | JBool b => Return (SqlInt (if b then 1 else 0))
  | JNum n => if int64 n then Return (SqlInt n) else Raise (OverflowError i)
  | JStr s => Return (SqlText s)
  | JArr _ | JObj _ => Raise (InterfaceError i)
  end.

Fixpoint bind_params (i : nat) (args : list json) : outcome (list sqlval) :=
  match args with
  | [] => Return []
  | v :: rest => p ← bind_param i v; ps ← bind_params (S i) rest; Return (p :: ps)
  end.

(** The Python value of a column of a fetched row. *)
Definition py_value (v : sqlval) : json :=
  match v with
  | SqlNull => JNull
  | SqlInt n => JNum n
  | SqlText s => JStr s
  end.

(** A VARCHAR column has TEXT affinity: numbers are stored as their text. *)
Definition text_affinity (v : sqlval) : sqlval :=
  match v with
  | SqlInt n => SqlText (pretty n)
  | _ => v
  end.

(** [a = b] in a WHERE clause or a UNIQUE index: NULL equals nothing. *)
Definition sql_eq (a b : sqlval) : bool :=
  match a, b with
  | SqlNull, _ | _, SqlNull => false
  | _, _ => bool_decide (a = b)
  end.

(** The rowid of a new row: one more than the largest in use, 1 in an empty
    table. *)
Definition next_rowid (rows : table) : Z :=
  match rows with
  | [] => 1
  | r :: rest => 1 + foldr Z.max (Row.id r) (Row.id <$> rest)
  end.

(** The first NOT NULL column of [r] that holds NULL. *)
Definition null_column (r : Row.t) : option string :=
  fst <$> head (filter (fun c => bool_decide (c.2 = SqlNull))
    [("name", Row.name r); ("map_url", Row.map_url r); ("img_url", Row.img_url r);
     ("location", Row.location r); ("has_sockets", Row.has_sockets r);
     ("has_toilet", Row.has_toilet r); ("has_wifi", Row.has_wifi r);
     ("can_take_calls", Row.can_take_calls r)]).

(** The constraint checks of an INSERT, then the new row. *)
Definition insert_row (r : Row.t) (rows : table) : outcome table :=
  match null_column r with
  | Some column => Raise (IntegrityError (NotNull column))
  | None =>
      if existsb (fun r' => sql_eq (Row.name r') (Row.name r)) rows
      then Raise (IntegrityError (Unique "name"))
      else Return (rows ++ [r])
  end.

Section Engine.
(** The integer a TEXT value is stored as in a column of NUMERIC affinity,
    if SQLite reads it as one. *)
Variable numeric_text : string -> option Z.

(** A BOOLEAN column has NUMERIC affinity. *)
Definition numeric_affinity (v : sqlval) : sqlval :=
  match v with
  | SqlText s => match numeric_text s with Some n => SqlInt n | None => v end
  | _ => v
  end.

(** The row as stored: every value takes the affinity of its column. *)
Definition stored_row (rowid : Z)
    (name map_url img_url location
     has_sockets has_toilet has_wifi can_take_calls seats coffee_price : sqlval)
  : Row.t :=
  Row.mk rowid
    (text_affinity name) (text_affinity map_url)
    (text_affinity img_url) (text_affinity location)
    (numeric_affinity has_sockets) (numeric_affinity has_toilet)
    (numeric_affinity has_wifi) (numeric_affinity can_take_calls)
    (text_affinity seats) (text_affinity coffee_price).

(** [conn.execute(query, args)]: the fetched rows and the connection. *)
Definition execute (conn : connection) (query : sql) (args : list json)
  : outcome (list Row.t * connection) :=
  match query, args with
  | SELECT_all, [] => Return (view conn, conn)
  | SELECT_by_name, [_] =>
      params ← bind_params 0 args;
      match params with
      | [v] => Return (filter (fun r => sql_eq (Row.name r) (text_affinity v) = true)
                              (view conn), conn)
      | _ => Raise ProgrammingError
      end
  | INSERT_cafe, [_; _; _; _; _; _; _; _; _; _] =>
      params ← bind_params 0 args;
      match params with
      | [name; map_url; img_url; location;
         has_sockets; has_toilet; has_wifi; can_take_calls; seats; coffee_price] =>
          rows ← insert_row
            (stored_row (next_rowid (view conn)) name map_url img_url location
               has_sockets has_toilet has_wifi can_take_calls seats coffee_price)
            (view conn);
          Return ([], {| disk := disk conn; view := rows |})
      | _ => Raise ProgrammingError
      end
  | _, _ => Raise ProgrammingError
  end.
End Engine.

(** ** cafe-api-sqlite3.py *)

Module Sqlite3.
Section Handlers.
Variable numeric_text : string -> option Z.

(** [conn.row_factory = sqlite3.Row] only gives access to columns by
    name. *)
Definition connect_db (fault : option string) (db : table) : outcome connection :=
  sqlite3_connect fault db.

(** What [query_db] returns: [rv[0] if rv else None] with [one], the list
    [rv] without. *)
Definition fetched (one : bool) : Type :=
  if one then option Row.t else list Row.t.

(** The result, and the committed table afterwards.  [query_db] never
    commits; when [execute] raises the connection is left unclosed. *)
Definition query_db (fault : option string) (db : table)
    (query : sql) (args : list json) (one : bool) : outcome (fetched one) * table :=
  match connect_db fault db with
  | Raise e => (Raise e, db)
  | Return conn =>
      match execute numeric_text conn query args with
      | Raise e => (Raise e, disk conn)
      | Return (rv, conn') =>
          (Return (match one return fetched one with
                   | true => head rv
                   | false => rv
                   end), close conn')
      end
  end.

(** [dict(row)] *)
Definition dict (row : Row.t) : json :=
  JObj (list_to_map
    [("id", JNum (Row.id row)); ("name", py_value (Row.name row));
     ("map_url", py_value (Row.map_url row)); ("img_url", py_value (Row.img_url row));
     ("location", py_value (Row.location row));
     ("has_sockets", py_value (Row.has_sockets row));
     ("has_toilet", py_value (Row.has_toilet row));
     ("has_wifi", py_value (Row.has_wifi row));
     ("can_take_calls", py_value (Row.can_take_calls row));
     ("seats", py_value (Row.seats row));
     ("coffee_price", py_value (Row.coffee_price row))]).

Definition get_cafes (fault : option string) (db : table) : response * table :=
  match query_db fault db SELECT_all [] false with
  | (Raise e, db') => (Unhandled e, db')
  | (Return cafes, db') => (Jsonify 200 (JArr (dict <$> cafes)), db')
  end.

Definition get_cafe_by_name (fault : option string) (db : table) (name : string)
  : response * table :=
  match query_db fault db SELECT_by_name [JStr name] true with
  | (Raise e, db') => (Unhandled e, db')
  | (Return None, db') => (Abort 404 "Cafe not found", db')
  | (Return (Some cafe), db') => (Jsonify 200 (dict cafe), db')
  end.

(** The body of the [try] of [add_cafe]: the committed table when it runs
    to its end. *)
Definition add_cafe_try (fault : option string) (db : table) (new_cafe : json)
  : outcome table :=
  conn ← connect_db fault db;
  name ← subscript new_cafe "name";
  map_url ← subscript new_cafe "map_url";
  img_url ← subscript new_cafe "img_url";
  location ← subscript new_cafe "location";
  has_sockets ← subscript new_cafe "has_sockets";
  has_toilet ← subscript new_cafe "has_toilet";
  has_wifi ← subscript new_cafe "has_wifi";
  can_take_calls ← subscript new_cafe "can_take_calls";
  seats ← py_get new_cafe "seats";
  coffee_price ← py_get new_cafe "coffee_price";
  '(_, conn) ← execute numeric_text conn INSERT_cafe
      [name; map_url; img_url; location;
       has_sockets; has_toilet; has_wifi; can_take_calls; seats; coffee_price];
  Return (close (commit conn)).

Definition add_cafe (fault : option string) (db : table) (new_cafe : json)
  : response * table :=
  match py_all_in required_keys new_cafe with
  | Raise e => (Unhandled e, db)
  | Return false => (Abort 400 "Missing required fields", db)
  | Return true =>
      match add_cafe_try fault db new_cafe with
      | Return db' =>
          (Jsonify 201 (JObj {[ "message" := JStr "Cafe added successfully" ]}), db')
      | Raise e =>
          if is_IntegrityError e
          then (Abort 400 "Cafe with this name already exists", db)
          else (Unhandled e, db)
      end
  end.
End Handlers.
End Sqlite3.

(** ** cafe-api-sqlalchemy.py *)

Module SqlAlchemy.
Module Cafe.
(** An instance of the mapped class [Cafe]: its attributes are Python
    values. *)
Record t : Type := mk {
  id : json;
  name : json;
  map_url : json;
  img_url : json;
  location : json;
  has_sockets : json;
  has_toilet : json;
  has_wifi : json;
  can_take_calls : json;
  seats : json;
  coffee_price : json
}.
End Cafe.

(** Result processor of a [db.Boolean] column on a backend without native
    booleans: [None] stays, anything else goes through [bool]. *)
Definition int_to_boolean (v : sqlval) : json :=
  match v with
  | SqlNull => JNull
  | SqlInt n => JBool (negb (n =? 0))
  | SqlText s => JBool (negb (bool_decide (s = "")))
  end.

(** Bind processor of a [db.Boolean] column: only None, True, False and
    what equals them is accepted, and sent as an integer. *)
Definition boolean_bind (column : string) (v : json) : outcome json :=
  match v with
  | JNull => Return JNull
  | JBool b => Return (JNum (if b then 1 else 0))
  | JNum n => if (n =? 0) || (n =? 1) then Return (JNum n)
              else Raise (StatementError column)
  | _ => Raise (StatementError column)
  end.

(** The instance loaded from a row. *)
Definition load (r : Row.t) : Cafe.t :=
  {| Cafe.id := JNum (Row.id r);
     Cafe.name := py_value (Row.name r);
     Cafe.map_url := py_value (Row.map_url r);
     Cafe.img_url := py_value (Row.img_url r);
     Cafe.location := py_value (Row.location r);
     Cafe.has_sockets := int_to_boolean (Row.has_sockets r);
     Cafe.has_toilet := int_to_boolean (Row.has_toilet r);
     Cafe.has_wifi := int_to_boolean (Row.has_wifi r);
     Cafe.can_take_calls := int_to_boolean (Row.can_take_calls r);
     Cafe.seats := py_value (Row.seats r);
     Cafe.coffee_price := py_value (Row.coffee_price r) |}.

(** The dictionary both GET handlers build from an instance. *)
Definition cafe_dict (cafe : Cafe.t) : json :=
  JObj (list_to_map
    [("id", Cafe.id cafe); ("name", Cafe.name cafe);
     ("map_url", Cafe.map_url cafe); ("img_url", Cafe.img_url cafe);
     ("location", Cafe.location cafe);
     ("has_sockets", Cafe.has_sockets cafe);
     ("has_toilet", Cafe.has_toilet cafe);
     ("has_wifi", Cafe.has_wifi cafe);
     ("can_take_calls", Cafe.can_take_calls cafe);
     ("seats", Cafe.seats cafe);
     ("coffee_price", Cafe.coffee_price cafe)]).

(** [Cafe(name=new_cafe_data['name'], ..., seats=new_cafe_data.get('seats'), ...)] *)
Definition Cafe_init (new_cafe_data : json) : outcome Cafe.t :=
  name ← subscript new_cafe_data "name";
  map_url ← subscript new_cafe_data "map_url";
  img_url ← subscript new_cafe_data "img_url";
  location ← subscript new_cafe_data "location";
  has_sockets ← subscript new_cafe_data "has_sockets";
  has_toilet ← subscript new_cafe_data "has_toilet";
  has_wifi ← subscript new_cafe_data "has_wifi";
  can_take_calls ← subscript new_cafe_data "can_take_calls";
  seats ← py_get new_cafe_data "seats";
  coffee_price ← py_get new_cafe_data "coffee_price";
  Return (Cafe.mk JNull name map_url img_url location
            has_sockets has_toilet has_wifi can_take_calls seats coffee_price).

Section Handlers.
Variable numeric_text : string -> option Z.
(** [str(e)] *)
Variable str_exc : exn -> string.

(** [Cafe.query.all()] and [Cafe.query.filter_by(name=name).first()]: the
    session reads on a connection it never commits. *)
Definition query_all (fault : option string) (db : table)
  : outcome (list Cafe.t) * table :=
  match sqlite3_connect fault db with
  | Raise e => (Raise e, db)
  | Return conn =>
      match execute numeric_text conn SELECT_all [] with
      | Raise e => (Raise e, close conn)
      | Return (rows, conn') => (Return (load <$> rows), close conn')
      end
  end.

Definition query_filter_by_name_first (fault : option string) (db : table)
    (name : string) : outcome (option Cafe.t) * table :=
  match sqlite3_connect fault db with
  | Raise e => (Raise e, db)
  | Return conn =>
      match execute numeric_text conn SELECT_by_name [JStr name] with
      | Raise e => (Raise e, close conn)
      | Return (rows, conn') => (Return (load <$> head rows), close conn')
      end
  end.

(** [db.session.add(new_cafe); db.session.commit()]: the flush sends the
    INSERT with the processed attributes, then the transaction is
    committed. *)
Definition session_add_commit (fault : option string) (db : table)
    (new_cafe : Cafe.t) : outcome table :=
  conn ← sqlite3_connect fault db;
  has_sockets ← boolean_bind "has_sockets" (Cafe.has_sockets new_cafe);
  has_toilet ← boolean_bind "has_toilet" (Cafe.has_toilet new_cafe);
  has_wifi ← boolean_bind "has_wifi" (Cafe.has_wifi new_cafe);
  can_take_calls ← boolean_bind "can_take_calls" (Cafe.can_take_calls new_cafe);
  '(_, conn) ← execute numeric_text conn INSERT_cafe
      [Cafe.name new_cafe; Cafe.map_url new_cafe; Cafe.img_url new_cafe;
       Cafe.location new_cafe; has_sockets; has_toilet; has_wifi; can_take_calls;
       Cafe.seats new_cafe; Cafe.coffee_price new_cafe];
  Return (close (commit conn)).

Definition get_cafes (fault : option string) (db : table) : response * table :=
  match query_all fault db with
  | (Raise e, db') => (Unhandled e, db')
  | (Return cafes, db') => (Jsonify 200 (JArr (cafe_dict <$> cafes)), db')
  end.

Definition get_cafe_by_name (fault : option string) (db : table) (name : string)
  : response * table :=
  match query_filter_by_name_first fault db name with
  | (Raise e, db') => (Unhandled e, db')
  | (Return None, db') => (Abort 404 "Cafe not found", db')
  | (Return (Some cafe), db') => (Jsonify 200 (cafe_dict cafe), db')
  end.

(** [db.session.rollback()] leaves the committed table as it was. *)
Definition add_cafe (fault : option string) (db : table) (new_cafe_data : json)
  : response * table :=
  match py_all_in required_keys new_cafe_data with
  | Raise e => (Unhandled e, db)
  | Return false => (Abort 400 "Missing required fields", db)
  | Return true =>
      match Cafe_init new_cafe_data with
      | Raise e => (Unhandled e, db)
      | Return new_cafe =>
          match session_add_commit fault db new_cafe with
          | Return db' =>
              (Jsonify 201 (JObj {[ "message" := JStr "Cafe added successfully" ]}), db')
          | Raise e => (Abort 400 ("Error: " ++ str_exc e), db)
          end
      end
  end.
End Handlers.
End SqlAlchemy.

(** ** The API as a whole *)

Inductive service : Type :=
| sqlite3_service        (* cafe-api-sqlite3.py *)
| sqlalchemy_service.    (* cafe-api-sqlalchemy.py *)

Inductive request : Type :=
| GET_cafes
| GET_cafe (name : string)
| POST_add_cafe (body : json).

Section Api.
Variable numeric_text : string -> option Z.
Variable str_exc : exn -> string.

Definition serve (s : service) (fault : option string) (db : table) (req : request)
  : response * table :=
  match s, req with
  | sqlite3_service, GET_cafes => Sqlite3.get_cafes numeric_text fault db
  | sqlite3_service, GET_cafe name => Sqlite3.get_cafe_by_name numeric_text fault db name
  | sqlite3_service, POST_add_cafe body => Sqlite3.add_cafe numeric_text fault db body
  | sqlalchemy_service, GET_cafes => SqlAlchemy.get_cafes numeric_text fault db
  | sqlalchemy_service, GET_cafe name =>
      SqlAlchemy.get_cafe_by_name numeric_text fault db name
  | sqlalchemy_service, POST_add_cafe body =>
      SqlAlchemy.add_cafe numeric_text str_exc fault db body
  end.

(** The tables that requests to either service lead to from [db0]. *)
Inductive reachable (db0 : table) : table -> Prop :=
| reachable_refl : reachable db0 db0
| reachable_step db s fault req :
    reachable db0 db -> reachable db0 (serve s fault db req).2.
End Api.

(** The Cafe object a service sends for a row. *)
Definition cafe_json (s : service) (r : Row.t) : json :=
  match s with
  | sqlite3_service => Sqlite3.dict r
  | sqlalchemy_service => SqlAlchemy.cafe_dict (SqlAlchemy.load r)
  end.

(** ** Predicates on tables and request bodies *)

(** [name] is unique across the rows. *)
Definition names_distinct (db : table) : Prop := NoDup (Row.name <$> db).

(** The rows of [db] named [name]. *)
Definition named (name : string) (db : table) : table :=
  filter (fun r => Row.name r = SqlText name) db.

(** The eight NOT NULL columns of [r] hold a value. *)
Definition required_not_null (r : Row.t) : Prop :=
  Row.name r <> SqlNull /\ Row.map_url r <> SqlNull /\ Row.img_url r <> SqlNull /\
  Row.location r <> SqlNull /\ Row.has_sockets r <> SqlNull /\
  Row.has_toilet r <> SqlNull /\ Row.has_wifi r <> SqlNull /\
  Row.can_take_calls r <> SqlNull.

Definition is_str (v : json) : bool := match v with JStr _ => true | _ => false end.
Definition is_bool (v : json) : bool := match v with JBool _ => true | _ => false end.
Definition is_null (v : json) : bool := match v with JNull => true | _ => false end.

(** A JSON scalar that SQLite can store. *)
Definition is_scalar (v : json) : bool :=
  match v with
  | JNull | JBool _ | JStr _ => true
  | JNum n => int64 n
  | JArr _ | JObj _ => false
  end.

Definition text_keys : list string := ["name"; "map_url"; "img_url"; "location"].
Definition flag_keys : list string :=
  ["has_sockets"; "has_toilet"; "has_wifi"; "can_take_calls"].
Definition optional_keys : list string := ["seats"; "coffee_price"].

(** The eleven keys of a Cafe object. *)
Definition cafe_keys : gset string :=
  list_to_set (["id"] ++ required_keys ++ optional_keys).

(** A create request with the types of the data model: the four texts are
    strings, the four flags booleans, [seats] and [coffee_price] strings,
    null or left out. *)
Definition valid_create (m : gmap string json) : bool :=
  forallb (fun k => from_option is_str false (m !! k)) text_keys &&
  forallb (fun k => from_option is_bool false (m !! k)) flag_keys &&
  forallb (fun k => from_option (fun v => is_str v || is_null v) true (m !! k)) optional_keys.

(** Every value supplied under one of the ten keys is a scalar. *)
Definition scalar_fields (m : gmap string json) : bool :=
  forallb (fun k => from_option is_scalar true (m !! k))
          (required_keys ++ optional_keys).

(** Every value supplied under one of the ten keys is a scalar, and every
    flag is one that [db.Boolean] accepts too. *)
Definition is_flag (v : json) : bool :=
  match v with
  | JNull | JBool _ => true
  | JNum n => (n =? 0) || (n =? 1)
  | _ => false
  end.

Definition portable_fields (m : gmap string json) : bool :=
  scalar_fields m && forallb (fun k => from_option is_flag true (m !! k)) flag_keys.


(** The value a dictionary holds under [key], None when it holds none. *)
Definition field (m : gmap string json) (key : string) : json :=
  default JNull (m !! key).

(** The SQLite value a scalar is bound as. *)
Definition sql_value (v : json) : sqlval :=
  match v with
  | JBool b => SqlInt (if b then 1 else 0)
  | JNum n => SqlInt n
  | JStr s => SqlText s
  | _ => SqlNull
  end.

(** The row a create request with scalar fields asks the table to store. *)
Definition requested_row (numeric_text : string -> option Z) (db : table)
    (m : gmap string json) : Row.t :=
  stored_row numeric_text (next_rowid db)
    (sql_value (field m "name")) (sql_value (field m "map_url"))
    (sql_value (field m "img_url")) (sql_value (field m "location"))
    (sql_value (field m "has_sockets")) (sql_value (field m "has_toilet"))
    (sql_value (field m "has_wifi")) (sql_value (field m "can_take_calls"))
    (sql_value (field m "seats")) (sql_value (field m "coffee_price")).

(** Two Cafe objects with the same keys and the same values outside the
    four flags. *)
Definition same_cafe (j1 j2 : json) : Prop :=
  match j1, j2 with
  | JObj m1, JObj m2 =>
      dom m1 = dom m2 /\ forall k : string, k ∉ flag_keys -> m1 !! k = m2 !! k
  | _, _ => j1 = j2
  end.


(** A row as the DDL allows it: the NOT NULL columns hold a value and the
    VARCHAR columns hold text or NULL. *)
Definition is_text (v : sqlval) : Prop :=
  match v with SqlInt _ => False | _ => True end.

Definition text_columns (r : Row.t) : Prop :=
  is_text (Row.name r) /\ is_text (Row.map_url r) /\ is_text (Row.img_url r) /\
  is_text (Row.location r) /\ is_text (Row.seats r) /\ is_text (Row.coffee_price r).

Definition well_stored (r : Row.t) : Prop :=
  required_not_null r /\ text_columns r.

(** The fields of a valid create request, one by one. *)
Record valid_fields (m : gmap string json) : Prop := {
  vf_name : exists s, m !! "name" = Some (JStr s);
  vf_map_url : exists s, m !! "map_url" = Some (JStr s);
  vf_img_url : exists s, m !! "img_url" = Some (JStr s);
  vf_location : exists s, m !! "location" = Some (JStr s);
  vf_has_sockets : exists b, m !! "has_sockets" = Some (JBool b);
  vf_has_toilet : exists b, m !! "has_toilet" = Some (JBool b);
  vf_has_wifi : exists b, m !! "has_wifi" = Some (JBool b);
  vf_can_take_calls : exists b, m !! "can_take_calls" = Some (JBool b);
  vf_seats : field m "seats" = JNull \/ exists s, field m "seats" = JStr s;
  vf_coffee_price :
    field m "coffee_price" = JNull \/ exists s, field m "coffee_price" = JStr s
}.

(** ** Sample data: the end-to-end scenario of the specification *)

Definition blue_bottle : gmap string json :=
  list_to_map
    [("name", JStr "Blue Bottle"); ("map_url", JStr "http://m");
     ("img_url", JStr "http://i"); ("location", JStr "SF");
     ("has_sockets", JBool true); ("has_toilet", JBool true);
     ("has_wifi", JBool false); ("can_take_calls", JBool false)].

Definition blue_bottle_row : Row.t :=
  Row.mk 1 (SqlText "Blue Bottle") (SqlText "http://m") (SqlText "http://i")
    (SqlText "SF") (SqlInt 1) (SqlInt 1) (SqlInt 0) (SqlInt 0) SqlNull SqlNull.

(** SQLite reading no TEXT as a number, and a rendering of exceptions, to
    run the services on sample data. *)
Definition no_numeric_text : string -> option Z := fun _ => None.
Definition plain_str_exc (e : exn) : string :=
  match e with
  | IntegrityError (Unique c) => "UNIQUE constraint failed: cafe." ++ c
  | IntegrityError (NotNull c) => "NOT NULL constraint failed: cafe." ++ c
  | OperationalError msg => msg
  | _ => "error"
  end.

(** ** cafe-webapp.py *)

Module WebApp.
(** What a view function of the web application returns; [view_error]
    stands for [response.json()] raising on a body that is no JSON. *)
Inductive view : Type :=
| render_template (template : string) (context : list (string * json))
| redirect (location : string)
| view_error.

Inductive method : Type := GET | POST.

(** [request.form.get(key)]: the submitted text, None when the form has no
    such field. *)
Definition form_get (form : gmap string string) (key : string) : json :=
  match form !! key with
  | Some value => JStr value
  | None => JNull
  end.

(** [request.form.get(key) == 'yes'] *)
Definition form_yes (form : gmap string string) (key : string) : json :=
  JBool (bool_decide (form !! key = Some "yes")).

(** The dictionary [add_cafe] collects from the form. *)
Definition new_cafe_data (form : gmap string string) : gmap string json :=
  list_to_map
    [("name", form_get form "name"); ("map_url", form_get form "map_url");
     ("img_url", form_get form "img_url"); ("location", form_get form "location");
     ("has_sockets", form_yes form "has_sockets");
     ("has_toilet", form_yes form "has_toilet");
     ("has_wifi", form_yes form "has_wifi");
     ("can_take_calls", form_yes form "can_take_calls");
     ("seats", form_get form "seats"); ("coffee_price", form_get form "coffee_price")].

(** [response.json()] *)
Definition response_json (r : response) : option json :=
  match r with
  | Jsonify _ j => Some j
  | _ => None
  end.

Section Views.
Variable numeric_text : string -> option Z.
Variable str_exc : exn -> string.
(** The API service that runs at [API_URL], and the state of its database
    file. *)
Variable api : service.
Variable fault : option string.

(** [requests.get(f'{API_URL}/cafes')] and
    [requests.post(f'{API_URL}/add_cafe', json=...)] reach the service, which
    answers. *)
Definition index (db : table) : view * table :=
  let '(response, db') := serve numeric_text str_exc api fault db GET_cafes in
  if bool_decide (status_code response = 200)
  then match response_json response with
       | Some cafes => (render_template "index.html" [("cafes", cafes)], db')
       | None => (view_error, db')
       end
  else (render_template "index.html" [("cafes", JArr [])], db').

(** The view, the messages flashed, and the table afterwards;
    [url_for('index')] is "/". *)
Definition add_cafe (db : table) (m : method) (form : gmap string string)
  : view * list (string * string) * table :=
  match m with
  | POST =>
      let '(response, db') :=
        serve numeric_text str_exc api fault db
          (POST_add_cafe (JObj (new_cafe_data form))) in
      if bool_decide (status_code response = 201)
      then (redirect "/", [("Cafe added successfully!", "success")], db')
      else (render_template "add_cafe.html" [],
            [("Failed to add cafe. Please try again.", "danger")], db')
  | GET => (render_template "add_cafe.html" [], [], db)
  end.
End Views.
End WebApp.

(** A form as a visitor might submit it. *)
Definition ritual_form : gmap string string :=
  list_to_map
    [("name", "Ritual"); ("map_url", "http://r"); ("img_url", "http://ri");
     ("location", "Mission"); ("has_sockets", "yes"); ("has_wifi", "Yes");
     ("seats", "20")].

Definition ritual_row : Row.t :=
  Row.mk 2 (SqlText "Ritual") (SqlText "http://r") (SqlText "http://ri")
    (SqlText "Mission") (SqlInt 1) (SqlInt 0) (SqlInt 0) (SqlInt 0)
    (SqlText "20") SqlNull.



(** * Properties *)

(** ** Sample runs *)

Example in_dict : py_in "name" (JObj blue_bottle) = Return true.
Proof. reflexivity. Qed.

Example in_str : py_in "name" (JStr "my name") = Return true.
Proof. reflexivity. Qed.

Example in_list : py_in "name" (JArr [JNum 1; JStr "name"]) = Return true.
Proof. reflexivity. Qed.

Example in_number : py_in "name" (JNum 5) = Raise TypeError.
Proof. reflexivity. Qed.

Example body_null nt :
  Sqlite3.add_cafe nt None [] JNull = (Unhandled TypeError, []).
Proof. reflexivity. Qed.

Example next_rowid_after_blue_bottle : next_rowid [blue_bottle_row] = 2.
Proof. reflexivity. Qed.

(** The end-to-end scenario of the specification in the SQLAlchemy
    service: 201, then 200 with [has_wifi] false and [seats] null. *)
Example sqlalchemy_blue_bottle nt str_exc :
  SqlAlchemy.add_cafe nt str_exc None [] (JObj blue_bottle) =
    (Jsonify 201 (JObj {[ "message" := JStr "Cafe added successfully" ]}),
     [blue_bottle_row]) /\
  exists obj,
    SqlAlchemy.get_cafe_by_name nt None [blue_bottle_row] "Blue Bottle" =
      (Jsonify 200 (JObj obj), [blue_bottle_row]) /\
    obj !! "id" = Some (JNum 1) /\
    obj !! "has_wifi" = Some (JBool false) /\ obj !! "seats" = Some JNull.
Proof.
  split; [vm_compute; reflexivity|].
  eexists. split; [reflexivity|]. vm_compute. repeat split.
Qed.

(** Names are compared byte for byte: "blue bottle" is another name. *)
Example other_case nt str_exc (s : service) :
  exists r,
    serve nt str_exc s None [blue_bottle_row]
      (POST_add_cafe (JObj (<["name" := JStr "blue bottle"]> blue_bottle))) =
      (Jsonify 201 (JObj {[ "message" := JStr "Cafe added successfully" ]}),
       [blue_bottle_row; r]) /\
    Row.id r = 2 /\ Row.name r = SqlText "blue bottle".
Proof. eexists. destruct s; vm_compute; repeat split. Qed.

(** A number sent as [name] is stored as its text and then conflicts with
    that text. *)
Example number_as_name nt str_exc :
  exists r,
    serve nt str_exc sqlite3_service None []
      (POST_add_cafe (JObj (<["name" := JNum 42]> blue_bottle))) =
      (Jsonify 201 (JObj {[ "message" := JStr "Cafe added successfully" ]}), [r]) /\
    Row.name r = SqlText "42" /\
    serve nt str_exc sqlite3_service None [r]
      (POST_add_cafe (JObj (<["name" := JStr "42"]> blue_bottle))) =
      (Abort 400 "Cafe with this name already exists", [r]).
Proof. eexists. vm_compute. repeat split. Qed.

(** ** The outcome monad *)

Lemma bind_Return {A B} (f : A -> outcome B) (c : outcome A) (b : B) :
  c ≫= f = Return b -> exists a, c = Return a /\ f a = Return b.
Proof. destruct c as [a|e]; cbn; intros H; [eauto | discriminate]. Qed.

Lemma bind_Raise {A B} (f : A -> outcome B) (c : outcome A) (e : exn) :
  c ≫= f = Raise e -> c = Raise e \/ exists a, c = Return a /\ f a = Raise e.
Proof. destruct c as [a|e']; cbn; intros H; [right; eauto | left; congruence]. Qed.

(** ** The request body *)

Lemma py_all_in_dict (keys : list string) (m : gmap string json) :
  py_all_in keys (JObj m) = Return (forallb (fun k => bool_decide (is_Some (m !! k))) keys).
Proof.
  induction keys as [|k ks IH]; [reflexivity|].
  cbn. destruct (bool_decide (is_Some (m !! k))); [apply IH | reflexivity].
Qed.

Lemma py_all_in_missing (keys : list string) (m : gmap string json) (k : string) :
  k ∈ keys -> m !! k = None -> py_all_in keys (JObj m) = Return false.
Proof.
  intros Hin Hk. rewrite py_all_in_dict. f_equal.
  apply not_true_is_false. intros Hall.
  pose proof (proj1 (forallb_forall _ _) Hall k (proj1 (list_elem_of_In _ _) Hin)) as Hk'.
  clear Hall. rename Hk' into Hall.
  apply bool_decide_eq_true in Hall. rewrite Hk in Hall.
  destruct Hall as [? ?]; discriminate.
Qed.

Lemma py_all_in_present (m : gmap string json) :
  py_all_in required_keys (JObj m) = Return true ->
  Forall (fun k => is_Some (m !! k)) required_keys.
Proof.
  intros H. rewrite py_all_in_dict in H. injection H as Hall.
  apply Forall_forall. intros k Hk.
  apply list_elem_of_In in Hk.
  apply (proj1 (forallb_forall (fun k => bool_decide (is_Some (m !! k))) required_keys) Hall) in Hk.
  apply bool_decide_eq_true in Hk. exact Hk.
Qed.

(** ** INSERT *)

Lemma insert_row_Return (r : Row.t) (rows rows' : table) :
  insert_row r rows = Return rows' ->
  rows' = rows ++ [r] /\ null_column r = None /\
  forall r', r' ∈ rows -> sql_eq (Row.name r') (Row.name r) = false.
Proof.
  unfold insert_row. destruct (null_column r); [discriminate|].
  destruct (existsb _ rows) eqn:Hex; [discriminate|].
  intros [= <-]. repeat split.
  intros r' Hr'. apply not_true_is_false. intros Heq.
  apply not_true_iff_false in Hex. apply Hex, existsb_exists.
  exists r'. split; [apply list_elem_of_In, Hr' | exact Heq].
Qed.

Lemma null_column_None (r : Row.t) : null_column r = None -> required_not_null r.
Proof.
  destruct r as [i n m im l s t w c se cp]. unfold null_column, required_not_null. cbn.
  repeat (case_bool_decide; [discriminate|]).
  intros _. tauto.
Qed.

Lemma text_affinity_is_text (v : sqlval) : is_text (text_affinity v).
Proof. destruct v; exact I. Qed.

Lemma stored_row_text_columns nt rowid n m i l s t w c se cp :
  text_columns (stored_row nt rowid n m i l s t w c se cp).
Proof. repeat split; apply text_affinity_is_text. Qed.

Lemma execute_INSERT nt (conn conn' : connection) (args : list json) (rows : list Row.t) :
  execute nt conn INSERT_cafe args = Return (rows, conn') ->
  disk conn' = disk conn /\
  exists r, text_columns r /\ insert_row r (view conn) = Return (view conn').
Proof.
  unfold execute.
  do 11 (destruct args as [|? args]; try discriminate).
  intros H. apply bind_Return in H as (params & _ & H).
  do 11 (destruct params as [|? params]; try discriminate).
  apply bind_Return in H as (rows' & Hins & [= _ <-]). cbn.
  split; [reflexivity|]. eexists. split; [|exact Hins].
  apply stored_row_text_columns.
Qed.

(** No statement changes the committed table. *)
Lemma execute_disk nt (conn conn' : connection) (query : sql) (args : list json)
    (rows : list Row.t) :
  execute nt conn query args = Return (rows, conn') -> disk conn' = disk conn.
Proof.
  destruct query.
  - unfold execute. destruct args; [|discriminate]. intros [= _ <-]. reflexivity.
  - unfold execute. destruct args as [|? [|? ?]]; try discriminate.
    intros H. apply bind_Return in H as (params & _ & H).
    destruct params as [|? [|? ?]]; try discriminate.
    injection H as _ <-. reflexivity.
  - intros H. apply execute_INSERT in H. tauto.
Qed.

Lemma sqlite3_connect_Return (fault : option string) (db : table) (conn : connection) :
  sqlite3_connect fault db = Return conn -> disk conn = db /\ view conn = db.
Proof. destruct fault; [discriminate|]. intros [= <-]. split; reflexivity. Qed.

(** ** What a request can do to the table *)

Lemma query_db_table nt fault (db : table) (query : sql) (args : list json) (one : bool) :
  (Sqlite3.query_db nt fault db query args one).2 = db.
Proof.
  unfold Sqlite3.query_db, Sqlite3.connect_db.
  destruct (sqlite3_connect fault db) as [conn|e] eqn:Hc; [|reflexivity].
  apply sqlite3_connect_Return in Hc as [Hd _].
  destruct (execute nt conn query args) as [[rv conn']|e] eqn:He; [|exact Hd].
  apply execute_disk in He. cbn. unfold close. congruence.
Qed.

Lemma sqlite3_add_cafe_try_Return nt fault (db db' : table) (new_cafe : json) :
  Sqlite3.add_cafe_try nt fault db new_cafe = Return db' ->
  exists r, text_columns r /\ insert_row r db = Return db'.
Proof.
  unfold Sqlite3.add_cafe_try, Sqlite3.connect_db. intros H.
  apply bind_Return in H as (conn & Hc & H).
  do 10 (apply bind_Return in H as (? & _ & H)).
  apply bind_Return in H as ([rows conn'] & He & [= <-]).
  apply sqlite3_connect_Return in Hc as [_ Hv].
  apply execute_INSERT in He as [_ (r & Ht & Hr)].
  exists r. rewrite <- Hv. auto.
Qed.

Lemma session_add_commit_Return nt fault (db db' : table) (new_cafe : SqlAlchemy.Cafe.t) :
  SqlAlchemy.session_add_commit nt fault db new_cafe = Return db' ->
  exists r, text_columns r /\ insert_row r db = Return db'.
Proof.
  unfold SqlAlchemy.session_add_commit. intros H.
  apply bind_Return in H as (conn & Hc & H).
  do 4 (apply bind_Return in H as (? & _ & H)).
  apply bind_Return in H as ([rows conn'] & He & [= <-]).
  apply sqlite3_connect_Return in Hc as [_ Hv].
  apply execute_INSERT in He as [_ (r & Ht & Hr)].
  exists r. rewrite <- Hv. auto.
Qed.

Lemma sqlite3_get_cafes_table nt fault (db : table) :
  (Sqlite3.get_cafes nt fault db).2 = db.
Proof.
  unfold Sqlite3.get_cafes.
  pose proof (query_db_table nt fault db SELECT_all [] false) as H.
  destruct (Sqlite3.query_db nt fault db SELECT_all [] false) as [[cafes|e] db'];
    exact H.
Qed.

Lemma sqlite3_get_cafe_by_name_table nt fault (db : table) (name : string) :
  (Sqlite3.get_cafe_by_name nt fault db name).2 = db.
Proof.
  unfold Sqlite3.get_cafe_by_name.
  pose proof (query_db_table nt fault db SELECT_by_name [JStr name] true) as H.
  destruct (Sqlite3.query_db nt fault db SELECT_by_name [JStr name] true)
    as [[[cafe|]|e] db']; exact H.
Qed.

Lemma query_all_table nt fault (db : table) :
  (SqlAlchemy.query_all nt fault db).2 = db.
Proof.
  unfold SqlAlchemy.query_all.
  destruct (sqlite3_connect fault db) as [conn|e] eqn:Hc; [|reflexivity].
  apply sqlite3_connect_Return in Hc as [Hd _].
  destruct (execute nt conn SELECT_all []) as [[rows conn']|e] eqn:He; [|exact Hd].
  apply execute_disk in He. cbn. unfold close. congruence.
Qed.

Lemma query_filter_by_name_first_table nt fault (db : table) (name : string) :
  (SqlAlchemy.query_filter_by_name_first nt fault db name).2 = db.
Proof.
  unfold SqlAlchemy.query_filter_by_name_first.
  destruct (sqlite3_connect fault db) as [conn|e] eqn:Hc; [|reflexivity].
  apply sqlite3_connect_Return in Hc as [Hd _].
  destruct (execute nt conn SELECT_by_name [JStr name]) as [[rows conn']|e] eqn:He;
    [|exact Hd].
  apply execute_disk in He. cbn. unfold close. congruence.
Qed.

Lemma sqlalchemy_get_cafes_table nt fault (db : table) :
  (SqlAlchemy.get_cafes nt fault db).2 = db.
Proof.
  unfold SqlAlchemy.get_cafes. pose proof (query_all_table nt fault db) as H.
  destruct (SqlAlchemy.query_all nt fault db) as [[cafes|e] db']; exact H.
Qed.

Lemma sqlalchemy_get_cafe_by_name_table nt fault (db : table) (name : string) :
  (SqlAlchemy.get_cafe_by_name nt fault db name).2 = db.
Proof.
  unfold SqlAlchemy.get_cafe_by_name.
  pose proof (query_filter_by_name_first_table nt fault db name) as H.
  destruct (SqlAlchemy.query_filter_by_name_first nt fault db name)
    as [[[cafe|]|e] db']; exact H.
Qed.

Lemma sqlite3_add_cafe_table nt fault (db : table) (body : json) :
  (Sqlite3.add_cafe nt fault db body).2 = db \/
  exists r, text_columns r /\
            insert_row r db = Return (Sqlite3.add_cafe nt fault db body).2.
Proof.
  unfold Sqlite3.add_cafe.
  destruct (py_all_in required_keys body) as [[|]|e]; [|left; reflexivity..].
  destruct (Sqlite3.add_cafe_try nt fault db body) as [db'|e] eqn:Ht.
  - right. exact (sqlite3_add_cafe_try_Return _ _ _ _ _ Ht).
  - left. destruct (is_IntegrityError e); reflexivity.
Qed.

Lemma sqlalchemy_add_cafe_table nt str_exc fault (db : table) (body : json) :
  (SqlAlchemy.add_cafe nt str_exc fault db body).2 = db \/
  exists r, text_columns r /\
            insert_row r db = Return (SqlAlchemy.add_cafe nt str_exc fault db body).2.
Proof.
  unfold SqlAlchemy.add_cafe.
  destruct (py_all_in required_keys body) as [[|]|e]; [|left; reflexivity..].
  destruct (SqlAlchemy.Cafe_init body) as [new_cafe|e]; [|left; reflexivity].
  destruct (SqlAlchemy.session_add_commit nt fault db new_cafe) as [db'|e] eqn:Ht.
  - right. exact (session_add_commit_Return _ _ _ _ _ Ht).
  - left. reflexivity.
Qed.

(** A request leaves the table as it is or appends one row that passed the
    constraint checks. *)
Lemma serve_table nt str_exc (s : service) fault (db : table) (req : request) :
  (serve nt str_exc s fault db req).2 = db \/
  exists r, text_columns r /\
            insert_row r db = Return (serve nt str_exc s fault db req).2.
Proof.
  destruct s, req; cbn [serve];
    auto using sqlite3_get_cafes_table, sqlite3_get_cafe_by_name_table,
      sqlalchemy_get_cafes_table, sqlalchemy_get_cafe_by_name_table,
      sqlite3_add_cafe_table, sqlalchemy_add_cafe_table.
Qed.

(** ** Invariants of the table *)

Lemma insert_row_names_distinct (r : Row.t) (rows rows' : table) :
  insert_row r rows = Return rows' -> names_distinct rows -> names_distinct rows'.
Proof.
  intros H Hnd. apply insert_row_Return in H as (-> & Hnull & Hfresh).
  apply null_column_None in Hnull as [Hname _].
  unfold names_distinct in *. rewrite fmap_app. cbn.
  apply NoDup_app. split; [exact Hnd|]. split; [|apply NoDup_singleton].
  intros v Hv Hv'. apply list_elem_of_singleton in Hv'. subst v.
  apply list_elem_of_fmap in Hv as (r' & Heq & Hr').
  specialize (Hfresh r' Hr'). rewrite <- Heq in Hfresh.
  unfold sql_eq in Hfresh.
  destruct (Row.name r) eqn:E; [congruence| |];
    rewrite bool_decide_eq_false in Hfresh; congruence.
Qed.

Lemma insert_row_well_stored (r : Row.t) (rows rows' : table) :
  text_columns r -> insert_row r rows = Return rows' ->
  Forall well_stored rows -> Forall well_stored rows'.
Proof.
  intros Ht H Hws. apply insert_row_Return in H as (-> & Hnull & _).
  apply Forall_app. split; [exact Hws|].
  apply Forall_singleton. split; [apply null_column_None, Hnull | exact Ht].
Qed.

Lemma serve_names_distinct nt str_exc s fault (db : table) (req : request) :
  names_distinct db -> names_distinct (serve nt str_exc s fault db req).2.
Proof.
  intros Hnd.
  destruct (serve_table nt str_exc s fault db req) as [-> | (r & _ & Hr)];
    [exact Hnd | exact (insert_row_names_distinct _ _ _ Hr Hnd)].
Qed.

Lemma serve_well_stored nt str_exc s fault (db : table) (req : request) :
  Forall well_stored db -> Forall well_stored (serve nt str_exc s fault db req).2.
Proof.
  intros Hws.
  destruct (serve_table nt str_exc s fault db req) as [-> | (r & Ht & Hr)];
    [exact Hws | exact (insert_row_well_stored _ _ _ Ht Hr Hws)].
Qed.

Lemma reachable_names_distinct nt str_exc (db0 db : table) :
  names_distinct db0 -> reachable nt str_exc db0 db -> names_distinct db.
Proof. intros H0 Hr. induction Hr; auto using serve_names_distinct. Qed.

Lemma reachable_well_stored nt str_exc (db0 db : table) :
  Forall well_stored db0 -> reachable nt str_exc db0 db -> Forall well_stored db.
Proof. intros H0 Hr. induction Hr; auto using serve_well_stored. Qed.

(** ** The create operation on a dictionary *)

Lemma subscript_present (m : gmap string json) (k : string) :
  is_Some (m !! k) -> subscript (JObj m) k = Return (field m k).
Proof. intros [v Hv]. unfold subscript, field. rewrite Hv. reflexivity. Qed.

Ltac required_present H :=
  repeat match type of H with
         | Forall _ (_ :: _) =>
             let Hk := fresh "Hk" in
             apply Forall_cons in H as [Hk H];
             rewrite (subscript_present _ _ Hk); cbn [mbind outcome_bind]
         end.

Lemma sqlite3_add_cafe_try_dict nt fault (db : table) (m : gmap string json) :
  Forall (fun k => is_Some (m !! k)) required_keys ->
  Sqlite3.add_cafe_try nt fault db (JObj m) =
    conn ← sqlite3_connect fault db;
    '(_, conn) ← execute nt conn INSERT_cafe (field m <$> required_keys ++ optional_keys);
    Return (close (commit conn)).
Proof.
  intros H. unfold Sqlite3.add_cafe_try, Sqlite3.connect_db, required_keys in *.
  destruct (sqlite3_connect fault db) as [conn|e]; [|reflexivity].
  cbn [mbind outcome_bind]. required_present H. reflexivity.
Qed.

Lemma Cafe_init_dict (m : gmap string json) :
  Forall (fun k => is_Some (m !! k)) required_keys ->
  SqlAlchemy.Cafe_init (JObj m) =
    Return (SqlAlchemy.Cafe.mk JNull (field m "name") (field m "map_url")
              (field m "img_url") (field m "location") (field m "has_sockets")
              (field m "has_toilet") (field m "has_wifi") (field m "can_take_calls")
              (field m "seats") (field m "coffee_price")).
Proof.
  intros H. unfold SqlAlchemy.Cafe_init, required_keys in *.
  required_present H. reflexivity.
Qed.

Lemma bind_param_scalar (i : nat) (v : json) :
  is_scalar v = true -> bind_param i v = Return (sql_value v).
Proof. destruct v; cbn; try discriminate; try reflexivity. intros ->. reflexivity. Qed.

Lemma bind_params_scalar (args : list json) :
  forall i, forallb is_scalar args = true ->
            bind_params i args = Return (sql_value <$> args).
Proof.
  induction args as [|v args IH]; intros i H; [reflexivity|].
  cbn in H. apply andb_true_iff in H as [Hv Hargs].
  cbn. rewrite (bind_param_scalar _ _ Hv). cbn. rewrite (IH _ Hargs). reflexivity.
Qed.

Lemma scalar_fields_field (m : gmap string json) (k : string) :
  scalar_fields m = true -> k ∈ required_keys ++ optional_keys ->
  is_scalar (field m k) = true.
Proof.
  unfold scalar_fields. intros H Hk.
  apply list_elem_of_In in Hk.
  apply (proj1 (forallb_forall (fun k => from_option is_scalar true (m !! k))
                               (required_keys ++ optional_keys)) H) in Hk.
  unfold field. destruct (m !! k); [exact Hk | reflexivity].
Qed.

Lemma scalar_fields_all (m : gmap string json) :
  scalar_fields m = true ->
  forallb is_scalar (field m <$> required_keys ++ optional_keys) = true.
Proof.
  intros H. apply forallb_forall. intros v Hv.
  apply list_elem_of_In, list_elem_of_fmap in Hv as (k & -> & Hk).
  exact (scalar_fields_field _ _ H Hk).
Qed.

(** With scalar arguments, an INSERT is the constraint check of the row
    they are stored as. *)
Lemma execute_INSERT_values nt (conn : connection) (v0 v1 v2 v3 v4 v5 v6 v7 v8 v9 : json) :
  forallb is_scalar [v0; v1; v2; v3; v4; v5; v6; v7; v8; v9] = true ->
  execute nt conn INSERT_cafe [v0; v1; v2; v3; v4; v5; v6; v7; v8; v9] =
    rows ← insert_row
      (stored_row nt (next_rowid (view conn))
         (sql_value v0) (sql_value v1) (sql_value v2) (sql_value v3) (sql_value v4)
         (sql_value v5) (sql_value v6) (sql_value v7) (sql_value v8) (sql_value v9))
      (view conn);
    Return ([], {| disk := disk conn; view := rows |}).
Proof.
  intros H. unfold execute. rewrite (bind_params_scalar _ 0%nat H). reflexivity.
Qed.

Lemma execute_INSERT_scalar nt (conn : connection) (m : gmap string json) :
  scalar_fields m = true ->
  execute nt conn INSERT_cafe (field m <$> required_keys ++ optional_keys) =
    rows ← insert_row (requested_row nt (view conn) m) (view conn);
    Return ([], {| disk := disk conn; view := rows |}).
Proof.
  intros H. apply scalar_fields_all in H.
  exact (execute_INSERT_values nt conn _ _ _ _ _ _ _ _ _ _ H).
Qed.

Lemma sqlite3_add_cafe_try_scalar nt (db : table) (m : gmap string json) :
  Forall (fun k => is_Some (m !! k)) required_keys ->
  scalar_fields m = true ->
  Sqlite3.add_cafe_try nt None db (JObj m) = insert_row (requested_row nt db m) db.
Proof.
  intros Hreq Hsc. rewrite (sqlite3_add_cafe_try_dict _ _ _ _ Hreq).
  cbn [sqlite3_connect mbind outcome_bind]. rewrite (execute_INSERT_scalar _ _ _ Hsc).
  cbn [view disk]. destruct (insert_row (requested_row nt db m) db); reflexivity.
Qed.

Lemma boolean_bind_flag (column : string) (v : json) :
  is_flag v = true -> is_scalar v = true ->
  exists v', SqlAlchemy.boolean_bind column v = Return v' /\
             is_scalar v' = true /\ sql_value v' = sql_value v.
Proof.
  destruct v as [|b|n| | |]; cbn; try discriminate.
  - eauto.
  - intros _ _. exists (JNum (if b then 1 else 0)). destruct b; auto.
  - intros -> Hn. eauto.
Qed.

Lemma portable_fields_flag (m : gmap string json) (k : string) :
  portable_fields m = true -> k ∈ flag_keys -> is_flag (field m k) = true.
Proof.
  unfold portable_fields. intros H Hk. apply andb_true_iff in H as [_ H].
  apply list_elem_of_In in Hk.
  apply (proj1 (forallb_forall (fun k => from_option is_flag true (m !! k))
                               flag_keys) H) in Hk.
  unfold field. destruct (m !! k); [exact Hk | reflexivity].
Qed.

Lemma portable_fields_scalar (m : gmap string json) :
  portable_fields m = true -> scalar_fields m = true.
Proof. unfold portable_fields. intros H. apply andb_true_iff in H. tauto. Qed.

(** With portable fields, the flush of the mapped service is the same
    constraint check. *)
Lemma session_add_commit_portable nt (db : table) (m : gmap string json) :
  portable_fields m = true ->
  SqlAlchemy.session_add_commit nt None db
    (SqlAlchemy.Cafe.mk JNull (field m "name") (field m "map_url")
       (field m "img_url") (field m "location") (field m "has_sockets")
       (field m "has_toilet") (field m "has_wifi") (field m "can_take_calls")
       (field m "seats") (field m "coffee_price")) =
  insert_row (requested_row nt db m) db.
Proof.
  intros Hp. pose proof (portable_fields_scalar _ Hp) as Hsc.
  assert (Hf : forall k, k ∈ flag_keys ->
             exists v', SqlAlchemy.boolean_bind k (field m k) = Return v' /\
                        is_scalar v' = true /\ sql_value v' = sql_value (field m k)).
  { intros k Hk. apply boolean_bind_flag; [exact (portable_fields_flag _ _ Hp Hk)|].
    apply scalar_fields_field; [exact Hsc|].
    unfold flag_keys in Hk. unfold required_keys, optional_keys. set_solver. }
  destruct (Hf "has_sockets") as (s & Hs & Hs1 & Hs2); [unfold flag_keys; set_solver|].
  destruct (Hf "has_toilet") as (t & Ht & Ht1 & Ht2); [unfold flag_keys; set_solver|].
  destruct (Hf "has_wifi") as (w & Hw & Hw1 & Hw2); [unfold flag_keys; set_solver|].
  destruct (Hf "can_take_calls") as (c & Hc & Hc1 & Hc2); [unfold flag_keys; set_solver|].
  assert (Hk : forall k, k ∈ required_keys ++ optional_keys -> is_scalar (field m k) = true)
    by (intros k; apply scalar_fields_field, Hsc).
  unfold SqlAlchemy.session_add_commit.
  cbn [sqlite3_connect mbind outcome_bind SqlAlchemy.Cafe.has_sockets
       SqlAlchemy.Cafe.has_toilet SqlAlchemy.Cafe.has_wifi
       SqlAlchemy.Cafe.can_take_calls SqlAlchemy.Cafe.name SqlAlchemy.Cafe.map_url
       SqlAlchemy.Cafe.img_url SqlAlchemy.Cafe.location SqlAlchemy.Cafe.seats
       SqlAlchemy.Cafe.coffee_price].
  rewrite Hs, Ht, Hw, Hc. cbn [mbind outcome_bind].
  rewrite execute_INSERT_values.
  - unfold requested_row. rewrite Hs2, Ht2, Hw2, Hc2. cbn [view disk].
    destruct (insert_row _ db); reflexivity.
  - cbn [forallb]. rewrite Hs1, Ht1, Hw1, Hc1.
    rewrite !Hk by (unfold required_keys, optional_keys; set_solver). reflexivity.
Qed.

(** ** Lookup by name *)

Lemma sql_eq_text (v : sqlval) (n : string) :
  sql_eq v (text_affinity (SqlText n)) = true <-> v = SqlText n.
Proof.
  cbn. destruct v; cbn; rewrite ?bool_decide_eq_true; split; congruence.
Qed.

Lemma select_by_name nt (conn : connection) (n : string) :
  execute nt conn SELECT_by_name [JStr n] = Return (named n (view conn), conn).
Proof.
  cbn. do 2 f_equal. unfold named. apply list_filter_iff. intros r. apply sql_eq_text.
Qed.

Lemma named_nil (n : string) (db : table) :
  (forall r, r ∈ db -> Row.name r <> SqlText n) -> named n db = [].
Proof.
  intros H. unfold named. induction db as [|a db IH]; [reflexivity|].
  rewrite filter_cons. destruct (decide (Row.name a = SqlText n)) as [Ha|_].
  - exfalso. apply (H a); [left | exact Ha].
  - apply IH. intros r Hr. apply H. right. exact Hr.
Qed.

Lemma named_unique (n : string) (db : table) (r : Row.t) :
  names_distinct db -> r ∈ db -> Row.name r = SqlText n -> named n db = [r].
Proof.
  unfold names_distinct, named. induction db as [|a db IH]; intros Hnd Hr Hn.
  - inversion Hr.
  - rewrite fmap_cons in Hnd. apply NoDup_cons in Hnd as [Ha Hnd].
    rewrite filter_cons. apply elem_of_cons in Hr as [<- | Hr].
    + rewrite decide_True by exact Hn. f_equal.
      apply named_nil. intros r' Hr' Heq. apply Ha.
      rewrite Hn, <- Heq. apply list_elem_of_fmap. eauto.
    + rewrite decide_False; [apply IH; assumption|].
      intros Heq. apply Ha. rewrite Heq, <- Hn. apply list_elem_of_fmap. eauto.
Qed.

Lemma get_cafe_by_name_named nt str_exc (s : service) (db : table) (n : string) :
  serve nt str_exc s None db (GET_cafe n) =
    (match head (named n db) with
     | None => Abort 404 "Cafe not found"
     | Some r => Jsonify 200 (cafe_json s r)
     end, db).
Proof.
  destruct s; cbn [serve].
  - unfold Sqlite3.get_cafe_by_name, Sqlite3.query_db, Sqlite3.connect_db.
    cbn [sqlite3_connect]. rewrite select_by_name. cbn [view close disk].
    destruct (head (named n db)); reflexivity.
  - unfold SqlAlchemy.get_cafe_by_name, SqlAlchemy.query_filter_by_name_first.
    cbn [sqlite3_connect]. rewrite select_by_name. cbn [view close disk].
    destruct (head (named n db)); reflexivity.
Qed.

Lemma get_cafes_all nt str_exc (s : service) (db : table) :
  serve nt str_exc s None db GET_cafes = (Jsonify 200 (JArr (cafe_json s <$> db)), db).
Proof.
  destruct s; cbn; [reflexivity|].
  rewrite <- list_fmap_compose. reflexivity.
Qed.

(** ** Valid create requests *)

Lemma valid_create_text (m : gmap string json) (k : string) :
  valid_create m = true -> k ∈ text_keys -> exists s, m !! k = Some (JStr s).
Proof.
  unfold valid_create. intros H Hk.
  apply andb_true_iff in H as [H _]. apply andb_true_iff in H as [H _].
  apply list_elem_of_In in Hk.
  apply (proj1 (forallb_forall (fun k => from_option is_str false (m !! k)) text_keys) H)
    in Hk.
  destruct (m !! k) as [[]|]; try discriminate. eauto.
Qed.

Lemma valid_create_flag (m : gmap string json) (k : string) :
  valid_create m = true -> k ∈ flag_keys -> exists b, m !! k = Some (JBool b).
Proof.
  unfold valid_create. intros H Hk.
  apply andb_true_iff in H as [H _]. apply andb_true_iff in H as [_ H].
  apply list_elem_of_In in Hk.
  apply (proj1 (forallb_forall (fun k => from_option is_bool false (m !! k)) flag_keys) H)
    in Hk.
  destruct (m !! k) as [[]|]; try discriminate. eauto.
Qed.

Lemma valid_create_optional (m : gmap string json) (k : string) :
  valid_create m = true -> k ∈ optional_keys ->
  field m k = JNull \/ exists s, field m k = JStr s.
Proof.
  unfold valid_create. intros H Hk.
  apply andb_true_iff in H as [_ H].
  apply list_elem_of_In in Hk.
  apply (proj1 (forallb_forall
                  (fun k => from_option (fun v => is_str v || is_null v) true (m !! k))
                  optional_keys) H) in Hk.
  unfold field. destruct (m !! k) as [[]|]; try discriminate; cbn; eauto.
Qed.

Lemma valid_create_fields (m : gmap string json) :
  valid_create m = true -> valid_fields m.
Proof.
  intros H.
  split;
    first [ apply (valid_create_text _ _ H); unfold text_keys; repeat constructor
          | apply (valid_create_flag _ _ H); unfold flag_keys; repeat constructor
          | apply (valid_create_optional _ _ H); unfold optional_keys; repeat constructor ].
Qed.

Lemma valid_create_present (m : gmap string json) :
  valid_create m = true -> Forall (fun k => is_Some (m !! k)) required_keys.
Proof.
  intros H. destruct (valid_create_fields _ H)
    as [[? E1] [? E2] [? E3] [? E4] [? E5] [? E6] [? E7] [? E8] _ _].
  unfold required_keys. repeat constructor; unfold is_Some; eauto.
Qed.

Lemma valid_create_portable (m : gmap string json) :
  valid_create m = true -> portable_fields m = true.
Proof.
  intros H. destruct (valid_create_fields _ H)
    as [[? E1] [? E2] [? E3] [? E4] [? E5] [? E6] [? E7] [? E8] E9 E10].
  unfold portable_fields, scalar_fields, field in *. cbn.
  rewrite E1, E2, E3, E4, E5, E6, E7, E8. cbn.
  destruct (m !! "seats") as [v|]; cbn in *;
    [destruct E9 as [-> | [? ->]]|];
    (destruct (m !! "coffee_price") as [v'|]; cbn in *;
     [destruct E10 as [-> | [? ->]]|]); reflexivity.
Qed.

(** The row of a valid create request keeps every value as it was sent:
    texts as TEXT, flags as the integers 1 and 0. *)
Lemma requested_row_valid nt (db : table) (m : gmap string json) :
  valid_create m = true ->
  required_not_null (requested_row nt db m) /\
  Row.name (requested_row nt db m) = sql_value (field m "name") /\
  null_column (requested_row nt db m) = None.
Proof.
  intros H. destruct (valid_create_fields _ H)
    as [[? E1] [? E2] [? E3] [? E4] [? E5] [? E6] [? E7] [? E8] _ _].
  unfold requested_row, stored_row, required_not_null, null_column, field.
  rewrite E1, E2, E3, E4, E5, E6, E7, E8. cbn.
  repeat split; congruence.
Qed.

Lemma insert_row_Raise (r : Row.t) (rows : table) (e : exn) :
  insert_row r rows = Raise e -> is_IntegrityError e = true.
Proof.
  unfold insert_row. destruct (null_column r); [intros [= <-]; reflexivity|].
  destruct (existsb _ rows); [intros [= <-]; reflexivity | discriminate].
Qed.

Lemma insert_row_conflict (r r' : Row.t) (rows : table) :
  null_column r = None -> r' ∈ rows -> Row.name r' = Row.name r ->
  insert_row r rows = Raise (IntegrityError (Unique "name")).
Proof.
  intros Hnull Hr' Heq. unfold insert_row. rewrite Hnull.
  apply null_column_None in Hnull as [Hname _].
  assert (Hex : existsb (fun r' => sql_eq (Row.name r') (Row.name r)) rows = true).
  { apply existsb_exists. exists r'. split; [apply list_elem_of_In, Hr'|].
    rewrite Heq. unfold sql_eq. destruct (Row.name r); [congruence| |];
      apply bool_decide_eq_true; reflexivity. }
  rewrite Hex. reflexivity.
Qed.

Lemma insert_row_fresh (r : Row.t) (rows : table) :
  null_column r = None -> (forall r', r' ∈ rows -> Row.name r' <> Row.name r) ->
  insert_row r rows = Return (rows ++ [r]).
Proof.
  intros Hnull Hfresh. unfold insert_row. rewrite Hnull.
  assert (Hex : existsb (fun r' => sql_eq (Row.name r') (Row.name r)) rows = false).
  { apply not_true_is_false. intros Hex. apply existsb_exists in Hex as (r' & Hr' & Heq).
    apply (Hfresh r'); [apply list_elem_of_In, Hr'|].
    unfold sql_eq in Heq. destruct (Row.name r'), (Row.name r); try discriminate;
      apply bool_decide_eq_true in Heq; exact Heq. }
  rewrite Hex. reflexivity.
Qed.

(** The create operation of either service on a request with portable
    fields, with the database at hand. *)
Lemma add_cafe_portable nt str_exc (s : service) (db : table) (m : gmap string json) :
  Forall (fun k => is_Some (m !! k)) required_keys -> portable_fields m = true ->
  serve nt str_exc s None db (POST_add_cafe (JObj m)) =
    match insert_row (requested_row nt db m) db with
    | Return db' =>
        (Jsonify 201 (JObj {[ "message" := JStr "Cafe added successfully" ]}), db')
    | Raise e =>
        (Abort 400 (match s with
                    | sqlite3_service => "Cafe with this name already exists"
                    | sqlalchemy_service => "Error: " ++ str_exc e
                    end), db)
    end.
Proof.
  intros Hreq Hp.
  assert (Hall : py_all_in required_keys (JObj m) = Return true).
  { rewrite py_all_in_dict. f_equal. apply forallb_forall. intros k Hk.
    apply bool_decide_eq_true. rewrite Forall_forall in Hreq.
    apply Hreq, list_elem_of_In, Hk. }
  destruct s; cbn [serve].
  - unfold Sqlite3.add_cafe. rewrite Hall.
    rewrite (sqlite3_add_cafe_try_scalar _ _ _ Hreq (portable_fields_scalar _ Hp)).
    destruct (insert_row _ db) as [db'|e] eqn:Hi; [reflexivity|].
    rewrite (insert_row_Raise _ _ _ Hi). reflexivity.
  - unfold SqlAlchemy.add_cafe. rewrite Hall, (Cafe_init_dict _ Hreq).
    rewrite (session_add_commit_portable _ _ _ Hp). reflexivity.
Qed.

Lemma add_cafe_valid nt str_exc (s : service) (db : table) (m : gmap string json) :
  valid_create m = true ->
  serve nt str_exc s None db (POST_add_cafe (JObj m)) =
    match insert_row (requested_row nt db m) db with
    | Return db' =>
        (Jsonify 201 (JObj {[ "message" := JStr "Cafe added successfully" ]}), db')
    | Raise e =>
        (Abort 400 (match s with
                    | sqlite3_service => "Cafe with this name already exists"
                    | sqlalchemy_service => "Error: " ++ str_exc e
                    end), db)
    end.
Proof.
  intros H. apply add_cafe_portable;
    [exact (valid_create_present _ H) | exact (valid_create_portable _ H)].
Qed.

(** ** NULL in a required column *)

Lemma bind_params_null (args : list json) :
  forall i params, bind_params i args = Return params ->
                   Forall2 (fun v p => v = JNull -> p = SqlNull) args params.
Proof.
  induction args as [|v args IH]; intros i params H.
  - injection H as <-. constructor.
  - cbn in H. apply bind_Return in H as (p & Hp & H).
    apply bind_Return in H as (ps & Hps & [= <-]).
    constructor; [|exact (IH _ _ Hps)].
    intros ->. cbn in Hp. congruence.
Qed.

Lemma execute_INSERT_not_null nt (conn conn' : connection) (rows : list Row.t)
    (v0 v1 v2 v3 v4 v5 v6 v7 v8 v9 : json) :
  execute nt conn INSERT_cafe [v0; v1; v2; v3; v4; v5; v6; v7; v8; v9] =
    Return (rows, conn') ->
  Forall (fun v => v <> JNull) [v0; v1; v2; v3; v4; v5; v6; v7].
Proof.
  unfold execute. intros H. apply bind_Return in H as (params & Hb & H).
  do 11 (destruct params as [|? params]; try discriminate).
  apply bind_Return in H as (rows' & Hins & _).
  apply insert_row_Return in Hins as (_ & Hnull & _).
  apply null_column_None in Hnull.
  destruct Hnull as (N0 & N1 & N2 & N3 & N4 & N5 & N6 & N7).
  apply bind_params_null in Hb.
  repeat match goal with
         | F : Forall2 _ (_ :: _) (_ :: _) |- _ => apply Forall2_cons in F as [? F]
         end.
  cbn in N0, N1, N2, N3, N4, N5, N6, N7.
  repeat constructor; intros E;
    match goal with
    | Hv : ?v = JNull -> ?p = SqlNull |- _ =>
        match type of E with v = JNull => specialize (Hv E); subst p end
    end; cbn in *; congruence.
Qed.

Lemma boolean_bind_null (column : string) (v v' : json) :
  SqlAlchemy.boolean_bind column v = Return v' -> v = JNull -> v' = JNull.
Proof. intros H ->. cbn in H. congruence. Qed.

Lemma sqlite3_add_cafe_try_not_null nt fault (db db' : table) (m : gmap string json) :
  Forall (fun k => is_Some (m !! k)) required_keys ->
  Sqlite3.add_cafe_try nt fault db (JObj m) = Return db' ->
  Forall (fun k => field m k <> JNull) required_keys.
Proof.
  intros Hreq H. rewrite (sqlite3_add_cafe_try_dict _ _ _ _ Hreq) in H.
  apply bind_Return in H as (conn & _ & H).
  apply bind_Return in H as ([rows conn'] & He & _).
  apply (execute_INSERT_not_null nt conn conn' rows (field m "name")
           (field m "map_url") (field m "img_url") (field m "location")
           (field m "has_sockets") (field m "has_toilet") (field m "has_wifi")
           (field m "can_take_calls") (field m "seats") (field m "coffee_price")) in He.
  repeat match goal with
         | F : Forall _ (_ :: _) |- _ => apply Forall_cons in F as [? F]
         end.
  unfold required_keys. repeat constructor; assumption.
Qed.

Lemma session_add_commit_not_null nt fault (db db' : table) (m : gmap string json) :
  SqlAlchemy.session_add_commit nt fault db
    (SqlAlchemy.Cafe.mk JNull (field m "name") (field m "map_url")
       (field m "img_url") (field m "location") (field m "has_sockets")
       (field m "has_toilet") (field m "has_wifi") (field m "can_take_calls")
       (field m "seats") (field m "coffee_price")) = Return db' ->
  Forall (fun k => field m k <> JNull) required_keys.
Proof.
  unfold SqlAlchemy.session_add_commit. intros H.
  apply bind_Return in H as (conn & _ & H).
  apply bind_Return in H as (s & Hs & H). apply bind_Return in H as (t & Ht & H).
  apply bind_Return in H as (w & Hw & H). apply bind_Return in H as (c & Hc & H).
  apply bind_Return in H as ([rows conn'] & He & _).
  apply execute_INSERT_not_null in He. cbn in He.
  repeat match goal with
         | F : Forall _ (_ :: _) |- _ => apply Forall_cons in F as [? F]
         end.
  unfold required_keys. repeat constructor; try assumption; intros E.
  - apply (boolean_bind_null _ _ _ Hs) in E. congruence.
  - apply (boolean_bind_null _ _ _ Ht) in E. congruence.
  - apply (boolean_bind_null _ _ _ Hw) in E. congruence.
  - apply (boolean_bind_null _ _ _ Hc) in E. congruence.
Qed.



Lemma py_all_in_required (m : gmap string json) :
  Forall (fun k => is_Some (m !! k)) required_keys ->
  py_all_in required_keys (JObj m) = Return true.
Proof.
  intros Hreq. rewrite py_all_in_dict. f_equal. apply forallb_forall. intros k Hk.
  apply bool_decide_eq_true. rewrite Forall_forall in Hreq.
  apply Hreq, list_elem_of_In, Hk.
Qed.

(** ** The two services side by side *)

Lemma same_cafe_refl (j : json) : same_cafe j j.
Proof. destruct j; cbn; auto. Qed.



(** ** Create, then look up *)

Ltac each_key Hk :=
  unfold required_keys, text_keys, flag_keys, optional_keys in Hk; cbn [app] in Hk;
  repeat (apply elem_of_cons in Hk as [-> | Hk]);
  [.. | apply elem_of_nil in Hk; destruct Hk].

Lemma named_app (n : string) (db1 db2 : table) :
  named n (db1 ++ db2) = named n db1 ++ named n db2.
Proof. unfold named. apply filter_app. Qed.

(** A valid create request under a name no row carries is answered with
    201 by either service and appends the requested row; the lookup of that
    name then answers 200 with that row serialised. *)
Lemma create_then_lookup nt str_exc (s : service) (db : table)
    (m : gmap string json) (n : string) :
  valid_create m = true -> m !! "name" = Some (JStr n) ->
  (forall r, r ∈ db -> Row.name r <> SqlText n) ->
  serve nt str_exc s None db (POST_add_cafe (JObj m)) =
    (Jsonify 201 (JObj {[ "message" := JStr "Cafe added successfully" ]}),
     db ++ [requested_row nt db m]) /\
  serve nt str_exc s None (db ++ [requested_row nt db m]) (GET_cafe n) =
    (Jsonify 200 (cafe_json s (requested_row nt db m)), db ++ [requested_row nt db m]).
Proof.
  intros Hvalid Hname Hfresh.
  destruct (requested_row_valid nt db m Hvalid) as (_ & Hrow & Hnull).
  assert (Hn : Row.name (requested_row nt db m) = SqlText n)
    by (rewrite Hrow; unfold field; rewrite Hname; reflexivity).
  split.
  - rewrite (add_cafe_valid _ _ _ _ _ Hvalid), insert_row_fresh;
      [reflexivity | exact Hnull | rewrite Hn; exact Hfresh].
  - rewrite get_cafe_by_name_named, named_app, (named_nil _ _ Hfresh).
    unfold named. rewrite filter_cons, decide_True by exact Hn. reflexivity.
Qed.

(** What the SQLAlchemy service sends back for the requested row: every
    supplied value, None for [seats] and [coffee_price] when left out. *)
Lemma sqlalchemy_round_trip_fields nt (db : table) (m : gmap string json) :
  valid_create m = true ->
  exists obj, cafe_json sqlalchemy_service (requested_row nt db m) = JObj obj /\
              forall k, k ∈ required_keys ++ optional_keys -> obj !! k = Some (field m k).
Proof.
  intros H. destruct (valid_create_fields _ H)
    as [[? E1] [? E2] [? E3] [? E4] [b5 E5] [b6 E6] [b7 E7] [b8 E8] E9 E10].
  eexists. split; [reflexivity|]. intros k Hk.
  unfold requested_row, field in *. rewrite E1, E2, E3, E4, E5, E6, E7, E8 in *.
  each_key Hk; cbn [default]; rewrite ?E1, ?E2, ?E3, ?E4, ?E5, ?E6, ?E7, ?E8;
    cbn [default]; try reflexivity.
  - destruct b5; reflexivity.
  - destruct b6; reflexivity.
  - destruct b7; reflexivity.
  - destruct b8; reflexivity.
  - destruct E9 as [-> | [? ->]]; reflexivity.
  - destruct E10 as [-> | [? ->]]; reflexivity.
Qed.

(** What the sqlite3 service sends back for it: the texts as supplied, the
    flags as the integers they are stored as. *)
Lemma sqlite3_round_trip_fields nt (db : table) (m : gmap string json) :
  valid_create m = true ->
  exists obj, cafe_json sqlite3_service (requested_row nt db m) = JObj obj /\
              (forall k, k ∈ text_keys ++ optional_keys -> obj !! k = Some (field m k)) /\
              (forall k, k ∈ flag_keys ->
                 obj !! k = Some (JNum 1) /\ field m k = JBool true \/
                 obj !! k = Some (JNum 0) /\ field m k = JBool false).
Proof.
  intros H. destruct (valid_create_fields _ H)
    as [[? E1] [? E2] [? E3] [? E4] [b5 E5] [b6 E6] [b7 E7] [b8 E8] E9 E10].
  eexists. split; [reflexivity|].
  unfold requested_row, field in *. rewrite E1, E2, E3, E4, E5, E6, E7, E8 in *.
  split; intros k Hk.
  - each_key Hk; cbn [default]; rewrite ?E1, ?E2, ?E3, ?E4;
      cbn [default]; try reflexivity.
    + destruct E9 as [-> | [? ->]]; reflexivity.
    + destruct E10 as [-> | [? ->]]; reflexivity.
  - each_key Hk; rewrite ?E5, ?E6, ?E7, ?E8; cbn [default].
    + destruct b5; [left | right]; split; reflexivity.
    + destruct b6; [left | right]; split; reflexivity.
    + destruct b7; [left | right]; split; reflexivity.
    + destruct b8; [left | right]; split; reflexivity.
Qed.

(** ** The Cafe objects of the list and lookup operations *)

Lemma cafe_json_keys (s : service) (r : Row.t) :
  exists obj, cafe_json s r = JObj obj /\ dom obj = cafe_keys.
Proof.
  destruct s; (eexists; split; [reflexivity|]);
    rewrite dom_list_to_map_L; reflexivity.
Qed.

(** The SQLAlchemy service sends the flags of a row that the DDL allows as
    JSON booleans and [seats] and [coffee_price] as a string or null. *)
Lemma sqlalchemy_cafe_json_types (r : Row.t) :
  well_stored r ->
  exists obj, cafe_json sqlalchemy_service r = JObj obj /\
    (forall k, k ∈ flag_keys -> exists b, obj !! k = Some (JBool b)) /\
    (forall k, k ∈ optional_keys ->
       obj !! k = Some JNull \/ exists s, obj !! k = Some (JStr s)).
Proof.
  intros [(_ & _ & _ & _ & N5 & N6 & N7 & N8) (_ & _ & _ & _ & T9 & T10)].
  eexists. split; [reflexivity|]. destruct r as [i n mu iu l s t w c se cp].
  cbn in *. split; intros k Hk; each_key Hk.
  - destruct s; [congruence | eexists; reflexivity ..].
  - destruct t; [congruence | eexists; reflexivity ..].
  - destruct w; [congruence | eexists; reflexivity ..].
  - destruct c; [congruence | eexists; reflexivity ..].
  - destruct se; [left; reflexivity | destruct T9 | right; eexists; reflexivity].
  - destruct cp; [left; reflexivity | destruct T10 | right; eexists; reflexivity].
Qed.

(** The sqlite3 service sends no flag as a JSON boolean. *)
Lemma sqlite3_cafe_json_flags (r : Row.t) :
  exists obj, cafe_json sqlite3_service r = JObj obj /\
    forall k b, k ∈ flag_keys -> obj !! k <> Some (JBool b).
Proof.
  eexists. split; [reflexivity|]. destruct r as [i n mu iu l s t w c se cp].
  cbn. intros k b Hk. each_key Hk.
  - destruct s; discriminate.
  - destruct t; discriminate.
  - destruct w; discriminate.
  - destruct c; discriminate.
Qed.

(** * The claims *)

(** C2. A create request whose JSON object lacks one of the eight required
    keys is answered by either service with HTTP 400 and the description
    "Missing required fields", whatever the state of the database file, and
    the table is the same before and after: the check comes before any
    connection is opened. *)
Theorem missing_required_field nt str_exc (s : service) (fault : option string)
    (db : table) (m : gmap string json) (k : string) :
  k ∈ required_keys -> m !! k = None ->
  serve nt str_exc s fault db (POST_add_cafe (JObj m)) =
    (Abort 400 "Missing required fields", db) /\
  status_code (serve nt str_exc s fault db (POST_add_cafe (JObj m))).1 = 400.
Proof.
  intros Hk Hm.
  assert (H : serve nt str_exc s fault db (POST_add_cafe (JObj m)) =
              (Abort 400 "Missing required fields", db)).
  { destruct s; cbn [serve]; unfold Sqlite3.add_cafe, SqlAlchemy.add_cafe;
      rewrite (py_all_in_missing _ _ _ Hk Hm); reflexivity. }
  rewrite H. split; reflexivity.
Qed.

Lemma missing_required_field_witness :
  "has_wifi" ∈ required_keys /\
  delete "has_wifi" blue_bottle !! "has_wifi" = None /\
  serve no_numeric_text plain_str_exc sqlite3_service None [blue_bottle_row]
    (POST_add_cafe (JObj (delete "has_wifi" blue_bottle))) =
    (Abort 400 "Missing required fields", [blue_bottle_row]).
Proof.
  assert (Hk : "has_wifi" ∈ required_keys) by (unfold required_keys; repeat constructor).
  assert (Hm : delete "has_wifi" blue_bottle !! "has_wifi" = None) by reflexivity.
  split; [exact Hk|]. split; [exact Hm|].
  exact (proj1 (missing_required_field no_numeric_text plain_str_exc sqlite3_service
                  None [blue_bottle_row] _ _ Hk Hm)).
Defined.


(** C10. The list and lookup operations of either service leave the table
    exactly as it was, whether the database can be read or not; so does
    every call of [query_db], whatever statement it is given, because it
    closes the connection without a commit. *)
Theorem reads_leave_table_unchanged nt str_exc (s : service) (fault : option string)
    (db : table) (n : string) :
  (serve nt str_exc s fault db GET_cafes).2 = db /\
  (serve nt str_exc s fault db (GET_cafe n)).2 = db /\
  forall query args one, (Sqlite3.query_db nt fault db query args one).2 = db.
Proof.
  repeat split.
  - destruct s; [apply sqlite3_get_cafes_table | apply sqlalchemy_get_cafes_table].
  - destruct s; [apply sqlite3_get_cafe_by_name_table
                | apply sqlalchemy_get_cafe_by_name_table].
  - intros. apply query_db_table.
Qed.



(** C1. Names stay unique.  Start from any table with distinct names and
    let requests to either service lead to a table [db]: the names of [db]
    are distinct.  A valid create request whose name (a string, compared
    byte for byte) is that of a row of [db] is answered by either service
    with HTTP 400 and a description that reports the conflict, the table
    stays as it was, and it holds exactly one row of that name. *)
Theorem name_uniqueness nt str_exc (s : service) (db0 db : table)
    (m : gmap string json) (n : string) :
  names_distinct db0 -> reachable nt str_exc db0 db ->
  valid_create m = true -> m !! "name" = Some (JStr n) ->
  (exists r, r ∈ db /\ Row.name r = SqlText n) ->
  names_distinct db /\
  serve nt str_exc s None db (POST_add_cafe (JObj m)) =
    (Abort 400 (match s with
                | sqlite3_service => "Cafe with this name already exists"
                | sqlalchemy_service =>
                    "Error: " ++ str_exc (IntegrityError (Unique "name"))
                end), db) /\
  length (named n (serve nt str_exc s None db (POST_add_cafe (JObj m))).2) = 1%nat /\
  names_distinct (serve nt str_exc s None db (POST_add_cafe (JObj m))).2.
Proof.
  intros H0 Hreach Hvalid Hname (r & Hr & Hrn).
  pose proof (reachable_names_distinct _ _ _ _ H0 Hreach) as Hnd.
  destruct (requested_row_valid nt db m Hvalid) as (_ & Hrow & Hnull).
  assert (Hins : insert_row (requested_row nt db m) db =
                 Raise (IntegrityError (Unique "name"))).
  { apply (insert_row_conflict _ r); [exact Hnull | exact Hr|].
    rewrite Hrow, Hrn. unfold field. rewrite Hname. reflexivity. }
  rewrite (add_cafe_valid _ _ _ _ _ Hvalid), Hins. cbn [snd].
  split; [exact Hnd|]. split; [reflexivity|]. split; [|exact Hnd].
  rewrite (named_unique _ _ _ Hnd Hr Hrn). reflexivity.
Qed.

Lemma name_uniqueness_witness :
  names_distinct [] /\
  reachable no_numeric_text plain_str_exc [] [blue_bottle_row] /\
  valid_create blue_bottle = true /\
  blue_bottle !! "name" = Some (JStr "Blue Bottle") /\
  (exists r, r ∈ [blue_bottle_row] /\ Row.name r = SqlText "Blue Bottle") /\
  serve no_numeric_text plain_str_exc sqlite3_service None [blue_bottle_row]
    (POST_add_cafe (JObj blue_bottle)) =
    (Abort 400 "Cafe with this name already exists", [blue_bottle_row]).
Proof.
  assert (H0 : names_distinct []) by apply NoDup_nil_2.
  assert (Hreach : reachable no_numeric_text plain_str_exc [] [blue_bottle_row]).
  { assert (E : (serve no_numeric_text plain_str_exc sqlalchemy_service None []
                   (POST_add_cafe (JObj blue_bottle))).2 = [blue_bottle_row])
      by (vm_compute; reflexivity).
    rewrite <- E. apply reachable_step, reachable_refl. }
  assert (Hvalid : valid_create blue_bottle = true) by (vm_compute; reflexivity).
  assert (Hname : blue_bottle !! "name" = Some (JStr "Blue Bottle"))
    by (vm_compute; reflexivity).
  assert (Hex : exists r, r ∈ [blue_bottle_row] /\ Row.name r = SqlText "Blue Bottle")
    by (exists blue_bottle_row; split; [constructor | reflexivity]).
  repeat (split; [assumption|]).
  exact (proj1 (proj2 (name_uniqueness no_numeric_text plain_str_exc sqlite3_service
                         [] [blue_bottle_row] blue_bottle "Blue Bottle"
                         H0 Hreach Hvalid Hname Hex))).
Defined.









(** C3 at the scenario of the specification, in the sqlite3 service: the
    create request for "Blue Bottle" is answered with 201 and the message,
    and the lookup of that name with 200, but the object it returns holds
    the integers 1 and 0 under the four flags where the request held true
    and false; the other fields come back as supplied, [seats] and
    [coffee_price] as null. *)
Theorem sqlite3_round_trip_blue_bottle nt str_exc :
  serve nt str_exc sqlite3_service None [] (POST_add_cafe (JObj blue_bottle)) =
    (Jsonify 201 (JObj {[ "message" := JStr "Cafe added successfully" ]}),
     [blue_bottle_row]) /\
  serve nt str_exc sqlite3_service None [blue_bottle_row] (GET_cafe "Blue Bottle") =
    (Jsonify 200 (Sqlite3.dict blue_bottle_row), [blue_bottle_row]) /\
  exists obj, Sqlite3.dict blue_bottle_row = JObj obj /\
    (blue_bottle !! "has_wifi" = Some (JBool false) /\
     obj !! "has_wifi" = Some (JNum 0)) /\
    (blue_bottle !! "has_sockets" = Some (JBool true) /\
     obj !! "has_sockets" = Some (JNum 1)) /\
    obj !! "name" = blue_bottle !! "name" /\
    obj !! "seats" = Some JNull /\ obj !! "coffee_price" = Some JNull.
Proof.
  split; [|split].
  - vm_compute. reflexivity.
  - vm_compute. reflexivity.
  - eexists. split; [reflexivity|]. vm_compute. repeat split.
Qed.

(** C8 in the sqlite3 service: every Cafe object of the list and lookup
    operations has the eleven keys, but none of the four flags is ever a
    JSON boolean; for the row of "Blue Bottle" the list operation sends 1,
    1, 0 and 0. *)
Theorem sqlite3_flags_are_integers nt str_exc :
  (forall r, exists obj, cafe_json sqlite3_service r = JObj obj /\
     dom obj = cafe_keys /\
     forall k b, k ∈ flag_keys -> obj !! k <> Some (JBool b)) /\
  serve nt str_exc sqlite3_service None [blue_bottle_row] GET_cafes =
    (Jsonify 200 (JArr [Sqlite3.dict blue_bottle_row]), [blue_bottle_row]) /\
  exists obj, Sqlite3.dict blue_bottle_row = JObj obj /\
    obj !! "has_sockets" = Some (JNum 1) /\ obj !! "has_toilet" = Some (JNum 1) /\
    obj !! "has_wifi" = Some (JNum 0) /\ obj !! "can_take_calls" = Some (JNum 0).
Proof.
  split; [|split].
  - intros r. destruct (sqlite3_cafe_json_flags r) as (obj & E & Hflags).
    destruct (cafe_json_keys sqlite3_service r) as (obj' & E' & Hdom).
    exists obj. rewrite E in E'. injection E' as <-. auto.
  - vm_compute. reflexivity.
  - eexists. split; [reflexivity|]. vm_compute. repeat split.
Qed.

(** The SQLAlchemy service, to compare with [sqlite3_flags_are_integers]:
    on every table that requests lead to from one the DDL allows, each Cafe
    object of the list and lookup operations has the eleven keys, JSON
    booleans under the four flags and a string or null under [seats] and
    [coffee_price]. *)
Lemma sqlalchemy_cafe_objects nt str_exc (db0 db : table) (r : Row.t) :
  Forall well_stored db0 -> reachable nt str_exc db0 db -> r ∈ db ->
  exists obj, cafe_json sqlalchemy_service r = JObj obj /\
    dom obj = cafe_keys /\
    (forall k, k ∈ flag_keys -> exists b, obj !! k = Some (JBool b)) /\
    (forall k, k ∈ optional_keys ->
       obj !! k = Some JNull \/ exists s, obj !! k = Some (JStr s)).
Proof.
  intros H0 Hreach Hr.
  pose proof (reachable_well_stored _ _ _ _ H0 Hreach) as Hws.
  rewrite Forall_forall in Hws. specialize (Hws r Hr).
  destruct (sqlalchemy_cafe_json_types r Hws) as (obj & E & Hflags & Hopt).
  destruct (cafe_json_keys sqlalchemy_service r) as (obj' & E' & Hdom).
  exists obj. rewrite E in E'. injection E' as <-. auto.
Qed.

(** The SQLAlchemy service, to compare with
    [sqlite3_round_trip_blue_bottle]: a valid create request under a new
    name is answered with 201, and the lookup of that name with 200 and an
    object that holds every supplied value, null for [seats] and
    [coffee_price] when they were left out. *)
Lemma sqlalchemy_round_trip nt str_exc (db : table) (m : gmap string json) (n : string) :
  valid_create m = true -> m !! "name" = Some (JStr n) ->
  (forall r, r ∈ db -> Row.name r <> SqlText n) ->
  exists db' obj,
    SqlAlchemy.add_cafe nt str_exc None db (JObj m) =
      (Jsonify 201 (JObj {[ "message" := JStr "Cafe added successfully" ]}), db') /\
    SqlAlchemy.get_cafe_by_name nt None db' n = (Jsonify 200 (JObj obj), db') /\
    forall k, k ∈ required_keys ++ optional_keys -> obj !! k = Some (field m k).
Proof.
  intros Hvalid Hname Hfresh.
  destruct (create_then_lookup nt str_exc sqlalchemy_service db m n Hvalid Hname Hfresh)
    as [Hadd Hget].
  destruct (sqlalchemy_round_trip_fields nt db m Hvalid) as (obj & E & Hobj).
  exists (db ++ [requested_row nt db m]), obj.
  cbn [serve] in Hadd, Hget. rewrite E in Hget. auto.
Qed.

(** * Further properties of the services *)

(** ** What a create request does to the table *)









(** ** Row ids *)






(** ** Bodies that are no JSON object *)

(** X3. A create request whose body is JSON but no object never adds a row,
    in either service and whether or not the database can be read: it is
    answered with 400 "Missing required fields" or leaves the handler as an
    exception (500).  For null, a boolean or a number it is always the
    TypeError of the [in] test. *)
Theorem non_object_body nt str_exc (s : service) (fault : option string)
    (db : table) (body : json) :
  (forall m, body <> JObj m) ->
  (serve nt str_exc s fault db (POST_add_cafe body)).2 = db /\
  ((serve nt str_exc s fault db (POST_add_cafe body)).1 =
     Abort 400 "Missing required fields" \/
   exists e, (serve nt str_exc s fault db (POST_add_cafe body)).1 = Unhandled e) /\
  match body with
  | JNull | JBool _ | JNum _ =>
      (serve nt str_exc s fault db (POST_add_cafe body)).1 = Unhandled TypeError
  | _ => True
  end.
Proof.
  intros Hbody. destruct s; cbn [serve].
  - unfold Sqlite3.add_cafe.
    destruct body as [| | |str|l|m]; try (cbn; repeat split; eauto; fail).
    + destruct (py_all_in required_keys (JStr str)) as [[|]|e]; cbn [fst snd];
        [|repeat split; eauto..].
      unfold Sqlite3.add_cafe_try, Sqlite3.connect_db.
      destruct fault; cbn; repeat split; eauto.
    + destruct (py_all_in required_keys (JArr l)) as [[|]|e]; cbn [fst snd];
        [|repeat split; eauto..].
      unfold Sqlite3.add_cafe_try, Sqlite3.connect_db.
      destruct fault; cbn; repeat split; eauto.
    + destruct (Hbody m eq_refl).
  - unfold SqlAlchemy.add_cafe.
    destruct body as [| | |str|l|m]; try (cbn; repeat split; eauto; fail).
    + destruct (py_all_in required_keys (JStr str)) as [[|]|e]; cbn [fst snd];
        repeat split; eauto.
    + destruct (py_all_in required_keys (JArr l)) as [[|]|e]; cbn [fst snd];
        repeat split; eauto.
    + destruct (Hbody m eq_refl).
Qed.

Lemma non_object_body_witness :
  (forall m, JArr [JStr "name"] <> JObj m) /\
  (serve no_numeric_text plain_str_exc sqlite3_service None [blue_bottle_row]
     (POST_add_cafe (JArr [JStr "name"]))).2 = [blue_bottle_row].
Proof.
  assert (H : forall m, JArr [JStr "name"] <> JObj m) by (intros m; discriminate).
  split; [exact H|].
  exact (proj1 (non_object_body no_numeric_text plain_str_exc sqlite3_service None
                  [blue_bottle_row] (JArr [JStr "name"]) H)).
Defined.

(** ** Values SQLite cannot store *)

Lemma bind_params_not_scalar (args : list json) :
  forall i, forallb is_scalar args = false ->
            exists e, bind_params i args = Raise e /\ is_IntegrityError e = false.
Proof.
  induction args as [|v args IH]; intros i H; [discriminate|].
  cbn in H. cbn [bind_params].
  destruct (is_scalar v) eqn:Hv.
  - rewrite (bind_param_scalar _ _ Hv). cbn [mbind outcome_bind].
    destruct (IH (S i) H) as (e & -> & He). eauto.
  - destruct v; cbn in Hv; try discriminate; cbn; rewrite ?Hv; eauto.
Qed.

Lemma bind_params_Return_scalar (args : list json) :
  forall i params, bind_params i args = Return params -> forallb is_scalar args = true.
Proof.
  intros i params H. destruct (forallb is_scalar args) eqn:E; [reflexivity|].
  destruct (bind_params_not_scalar _ i E) as (e & He & _). congruence.
Qed.

Lemma scalar_fields_forallb (m : gmap string json) :
  forallb is_scalar (field m <$> required_keys ++ optional_keys) = scalar_fields m.
Proof.
  unfold scalar_fields. induction (required_keys ++ optional_keys) as [|k ks IH];
    [reflexivity|].
  cbn. rewrite IH. f_equal. unfold field. destruct (m !! k); reflexivity.
Qed.

Lemma boolean_bind_Return_scalar (column : string) (v v' : json) :
  SqlAlchemy.boolean_bind column v = Return v' ->
  is_scalar v' = true -> is_scalar v = true.
Proof.
  destruct v as [|b|n| | |]; cbn; try discriminate; try reflexivity.
  destruct ((n =? 0) || (n =? 1)); [|discriminate]. intros [= <-]. auto.
Qed.

(** X4. A create request with all required keys that binds one of the ten
    keys to an array, an object or an integer outside 64 bits: the sqlite3
    service answers 500, because the binding error is no IntegrityError and
    leaves the handler; the SQLAlchemy service answers 400.  Neither adds a
    row. *)
Theorem unsupported_value nt str_exc (db : table) (m : gmap string json) :
  Forall (fun k => is_Some (m !! k)) required_keys -> scalar_fields m = false ->
  (exists e, Sqlite3.add_cafe nt None db (JObj m) = (Unhandled e, db) /\
             is_IntegrityError e = false) /\
  status_code (Sqlite3.add_cafe nt None db (JObj m)).1 = 500 /\
  exists e, SqlAlchemy.add_cafe nt str_exc None db (JObj m) =
              (Abort 400 ("Error: " ++ str_exc e), db).
Proof.
  intros Hreq Hsc. rewrite <- scalar_fields_forallb in Hsc.
  assert (Hraw : exists e, Sqlite3.add_cafe nt None db (JObj m) = (Unhandled e, db) /\
                           is_IntegrityError e = false).
  { destruct (bind_params_not_scalar _ 0%nat Hsc) as (e & He & Hi).
    exists e. split; [|exact Hi].
    unfold Sqlite3.add_cafe.
    rewrite (py_all_in_required _ Hreq), (sqlite3_add_cafe_try_dict _ _ _ _ Hreq).
    cbn [sqlite3_connect mbind outcome_bind]. unfold execute.
    cbn [fmap list_fmap required_keys optional_keys app] in *.
    rewrite He. cbn [mbind outcome_bind]. rewrite Hi. reflexivity. }
  split; [exact Hraw|]. split; [destruct Hraw as (e & -> & _); reflexivity|].
  unfold SqlAlchemy.add_cafe. rewrite (py_all_in_required _ Hreq), (Cafe_init_dict _ Hreq).
  destruct (SqlAlchemy.session_add_commit nt None db _) as [db'|e] eqn:Ht; [|eauto].
  exfalso. unfold SqlAlchemy.session_add_commit in Ht.
  apply bind_Return in Ht as (conn & _ & Ht).
  apply bind_Return in Ht as (s & Hs & Ht). apply bind_Return in Ht as (t & Ht' & Ht).
  apply bind_Return in Ht as (w & Hw & Ht). apply bind_Return in Ht as (c & Hc & Ht).
  apply bind_Return in Ht as ([rows conn'] & He & _).
  unfold execute in He. apply bind_Return in He as (params & Hb & _).
  apply bind_params_Return_scalar in Hb. cbn in Hb, Hs, Ht', Hw, Hc.
  repeat (apply andb_true_iff in Hb as [? Hb]).
  cbn in Hsc.
  rewrite (boolean_bind_Return_scalar _ _ _ Hs), (boolean_bind_Return_scalar _ _ _ Ht'),
    (boolean_bind_Return_scalar _ _ _ Hw), (boolean_bind_Return_scalar _ _ _ Hc) in Hsc
    by assumption.
  repeat match goal with H : is_scalar _ = true |- _ => rewrite H in Hsc; clear H end.
  discriminate.
Qed.

Lemma unsupported_value_witness :
  Forall (fun k => is_Some (<["map_url" := JArr []]> blue_bottle !! k)) required_keys /\
  scalar_fields (<["map_url" := JArr []]> blue_bottle) = false /\
  status_code (Sqlite3.add_cafe no_numeric_text None [blue_bottle_row]
                 (JObj (<["map_url" := JArr []]> blue_bottle))).1 = 500.
Proof.
  assert (Hreq : Forall (fun k => is_Some (<["map_url" := JArr []]> blue_bottle !! k))
                        required_keys)
    by (unfold required_keys; repeat constructor; vm_compute; eauto).
  assert (Hsc : scalar_fields (<["map_url" := JArr []]> blue_bottle) = false)
    by (vm_compute; reflexivity).
  split; [exact Hreq|]. split; [exact Hsc|].
  exact (proj1 (proj2 (unsupported_value no_numeric_text plain_str_exc
                         [blue_bottle_row] _ Hreq Hsc))).
Defined.

(** ** The SQLAlchemy service and JSON objects *)

(** X5. The SQLAlchemy service answers every create request whose body is a
    JSON object with 201 or 400, never with 500, whatever the object holds
    and whether or not the database can be read. *)
Theorem sqlalchemy_object_never_500 nt str_exc (fault : option string) (db : table)
    (m : gmap string json) :
  status_code (SqlAlchemy.add_cafe nt str_exc fault db (JObj m)).1 = 201 \/
  status_code (SqlAlchemy.add_cafe nt str_exc fault db (JObj m)).1 = 400.
Proof.
  unfold SqlAlchemy.add_cafe.
  destruct (py_all_in required_keys (JObj m)) as [[|]|e] eqn:Hall.
  - rewrite (Cafe_init_dict _ (py_all_in_present _ Hall)).
    destruct (SqlAlchemy.session_add_commit nt fault db _); auto.
  - auto.
  - rewrite py_all_in_dict in Hall. discriminate.
Qed.

(** ** NULL reported as a conflict *)

Lemma null_column_Some (r : Row.t) (col : string) :
  null_column r = Some col ->
  (col, SqlNull) ∈
    [("name", Row.name r); ("map_url", Row.map_url r); ("img_url", Row.img_url r);
     ("location", Row.location r); ("has_sockets", Row.has_sockets r);
     ("has_toilet", Row.has_toilet r); ("has_wifi", Row.has_wifi r);
     ("can_take_calls", Row.can_take_calls r)].
Proof.
  unfold null_column. intros H.
  destruct (head _) as [[c v]|] eqn:Hh; [|discriminate].
  injection H as <-. apply head_Some_elem_of, list_elem_of_filter in Hh as [Hv Hin].
  apply bool_decide_unpack in Hv. cbn in Hv. subst v. exact Hin.
Qed.

Lemma affinity_null nt (v : json) :
  is_scalar v = true ->
  text_affinity (sql_value v) = SqlNull \/ numeric_affinity nt (sql_value v) = SqlNull ->
  v = JNull.
Proof.
  destruct v as [|b|n|s| |]; cbn; try discriminate; intros _ [H|H];
    try reflexivity; try discriminate.
  destruct (nt s); discriminate.
Qed.

(** X6. A create request with all required keys and portable values, one
    required key bound to null, is answered by the sqlite3 service with 400
    "Cafe with this name already exists", whether or not a row of that name
    exists: its handler reports every IntegrityError as a name conflict.
    The SQLAlchemy service answers 400 with the text of the NOT NULL
    violation of a required key that is bound to null. *)
Theorem null_reported_as_conflict nt str_exc (db : table) (m : gmap string json)
    (k : string) :
  Forall (fun k => is_Some (m !! k)) required_keys -> portable_fields m = true ->
  k ∈ required_keys -> m !! k = Some JNull ->
  Sqlite3.add_cafe nt None db (JObj m) =
    (Abort 400 "Cafe with this name already exists", db) /\
  exists col, col ∈ required_keys /\ field m col = JNull /\
    SqlAlchemy.add_cafe nt str_exc None db (JObj m) =
      (Abort 400 ("Error: " ++ str_exc (IntegrityError (NotNull col))), db).
Proof.
  intros Hreq Hp Hk Hm.
  pose proof (add_cafe_portable nt str_exc sqlite3_service db m Hreq Hp) as Hraw.
  pose proof (add_cafe_portable nt str_exc sqlalchemy_service db m Hreq Hp) as Horm.
  cbn [serve] in Hraw, Horm.
  assert (Hsc : forall k, k ∈ required_keys -> is_scalar (field m k) = true).
  { intros k' Hk'. apply scalar_fields_field; [exact (portable_fields_scalar _ Hp)|].
    apply elem_of_app. left. exact Hk'. }
  destruct (null_column (requested_row nt db m)) as [col|] eqn:Hnull.
  - assert (Hins : insert_row (requested_row nt db m) db =
                   Raise (IntegrityError (NotNull col)))
      by (unfold insert_row; rewrite Hnull; reflexivity).
    rewrite Hins in Hraw, Horm. split; [exact Hraw|].
    exists col. apply null_column_Some in Hnull.
    unfold requested_row, stored_row in Hnull. cbn [Row.name Row.map_url Row.img_url
      Row.location Row.has_sockets Row.has_toilet Row.has_wifi Row.can_take_calls]
      in Hnull.
    assert (Hall : forall k', k' ∈ required_keys -> field m k' = JNull ->
              k' ∈ required_keys /\ field m k' = JNull /\
              SqlAlchemy.add_cafe nt str_exc None db (JObj m) =
                (Abort 400 ("Error: " ++ str_exc (IntegrityError (NotNull col))), db))
      by (intros; auto).
    repeat (apply elem_of_cons in Hnull as [[= -> Hv] | Hnull]);
      [.. | apply elem_of_nil in Hnull; destruct Hnull];
      symmetry in Hv;
      (apply Hall; [unfold required_keys; repeat constructor|]);
      (apply (affinity_null nt);
       [apply Hsc; unfold required_keys; repeat constructor
       | first [left; exact Hv | right; exact Hv]]).
  - exfalso. apply null_column_None in Hnull.
    assert (Hf : field m k = JNull) by (unfold field; rewrite Hm; reflexivity).
    unfold requested_row, stored_row, required_not_null in Hnull.
    cbn [Row.name Row.map_url Row.img_url Row.location Row.has_sockets
         Row.has_toilet Row.has_wifi Row.can_take_calls] in Hnull.
    destruct Hnull as (N1 & N2 & N3 & N4 & N5 & N6 & N7 & N8).
    each_key Hk; rewrite Hf in *; cbn in *; congruence.
Qed.

Lemma null_reported_as_conflict_witness :
  Forall (fun k => is_Some (<["location" := JNull]> blue_bottle !! k)) required_keys /\
  portable_fields (<["location" := JNull]> blue_bottle) = true /\
  "location" ∈ required_keys /\
  <["location" := JNull]> blue_bottle !! "location" = Some JNull /\
  Sqlite3.add_cafe no_numeric_text None [] (JObj (<["location" := JNull]> blue_bottle)) =
    (Abort 400 "Cafe with this name already exists", []).
Proof.
  assert (Hreq : Forall (fun k => is_Some (<["location" := JNull]> blue_bottle !! k))
                        required_keys)
    by (unfold required_keys; repeat constructor; vm_compute; eauto).
  assert (Hp : portable_fields (<["location" := JNull]> blue_bottle) = true)
    by (vm_compute; reflexivity).
  assert (Hk : "location" ∈ required_keys) by (unfold required_keys; repeat constructor).
  assert (Hm : <["location" := JNull]> blue_bottle !! "location" = Some JNull)
    by (vm_compute; reflexivity).
  repeat (split; [assumption|]).
  exact (proj1 (null_reported_as_conflict no_numeric_text plain_str_exc [] _ "location"
                  Hreq Hp Hk Hm)).
Defined.

(** ** Valid creates: accepted exactly when the name is new *)

Lemma named_nil_inv (n : string) (db : table) :
  named n db = [] -> forall r, r ∈ db -> Row.name r <> SqlText n.
Proof.
  unfold named. intros H r Hr Hn.
  assert (Hin : r ∈ filter (fun r => Row.name r = SqlText n) db)
    by (apply list_elem_of_filter; auto).
  rewrite H in Hin. inversion Hin.
Qed.

Lemma named_cons_inv (n : string) (db : table) (r : Row.t) (l : table) :
  named n db = r :: l -> r ∈ db /\ Row.name r = SqlText n.
Proof.
  unfold named. intros H.
  assert (Hin : r ∈ filter (fun r => Row.name r = SqlText n) db)
    by (rewrite H; left).
  apply list_elem_of_filter in Hin. tauto.
Qed.

Lemma valid_create_outcome nt str_exc (s : service) (db : table)
    (m : gmap string json) (n : string) :
  valid_create m = true -> m !! "name" = Some (JStr n) ->
  Row.name (requested_row nt db m) = SqlText n /\
  ((forall r, r ∈ db -> Row.name r <> SqlText n) /\
   serve nt str_exc s None db (POST_add_cafe (JObj m)) =
     (Jsonify 201 (JObj {[ "message" := JStr "Cafe added successfully" ]}),
      db ++ [requested_row nt db m]) \/
   (exists r, r ∈ db /\ Row.name r = SqlText n) /\
   exists d, serve nt str_exc s None db (POST_add_cafe (JObj m)) = (Abort 400 d, db)).
Proof.
  intros Hvalid Hname.
  destruct (requested_row_valid nt db m Hvalid) as (_ & Hrow & Hnull).
  assert (Hn : Row.name (requested_row nt db m) = SqlText n)
    by (rewrite Hrow; unfold field; rewrite Hname; reflexivity).
  split; [exact Hn|]. rewrite (add_cafe_valid _ _ _ _ _ Hvalid).
  destruct (named n db) as [|r l] eqn:Hnamed.
  - left. pose proof (named_nil_inv _ _ Hnamed) as Hfresh. split; [exact Hfresh|].
    rewrite insert_row_fresh; [reflexivity | exact Hnull | rewrite Hn; exact Hfresh].
  - right. apply named_cons_inv in Hnamed as [Hr Hrn]. split; [eauto|].
    rewrite (insert_row_conflict _ r); [eauto | exact Hnull | exact Hr | congruence].
Qed.

(** X7. With the database at hand, a valid create request is answered by
    either service with 201 exactly when no row carries its name, and with
    400 exactly when one does; the name is compared byte for byte, and
    nothing else in the request or the table matters. *)
Theorem valid_create_accepted_iff_new nt str_exc (s : service) (db : table)
    (m : gmap string json) (n : string) :
  valid_create m = true -> m !! "name" = Some (JStr n) ->
  (status_code (serve nt str_exc s None db (POST_add_cafe (JObj m))).1 = 201 <->
   forall r, r ∈ db -> Row.name r <> SqlText n) /\
  (status_code (serve nt str_exc s None db (POST_add_cafe (JObj m))).1 = 400 <->
   exists r, r ∈ db /\ Row.name r = SqlText n).
Proof.
  intros Hvalid Hname.
  destruct (valid_create_outcome nt str_exc s db m n Hvalid Hname)
    as (_ & [(Hfresh & ->) | ((r & Hr & Hrn) & d & ->)]); cbn [fst status_code].
  - split; split; [auto | reflexivity | discriminate |].
    intros (r & Hr & Hrn). destruct (Hfresh r Hr Hrn).
  - split; split; [discriminate | | eauto | reflexivity].
    intros Hfresh. destruct (Hfresh r Hr Hrn).
Qed.

Lemma valid_create_accepted_iff_new_witness :
  valid_create blue_bottle = true /\
  blue_bottle !! "name" = Some (JStr "Blue Bottle") /\
  (status_code (serve no_numeric_text plain_str_exc sqlalchemy_service None
                  [blue_bottle_row] (POST_add_cafe (JObj blue_bottle))).1 = 400 <->
   exists r, r ∈ [blue_bottle_row] /\ Row.name r = SqlText "Blue Bottle").
Proof.
  assert (Hvalid : valid_create blue_bottle = true) by (vm_compute; reflexivity).
  assert (Hname : blue_bottle !! "name" = Some (JStr "Blue Bottle"))
    by (vm_compute; reflexivity).
  split; [exact Hvalid|]. split; [exact Hname|].
  exact (proj2 (valid_create_accepted_iff_new no_numeric_text plain_str_exc
                  sqlalchemy_service [blue_bottle_row] blue_bottle "Blue Bottle"
                  Hvalid Hname)).
Defined.

(** ** Create, then list; create twice; create, then look up another name *)



(** X9. The same valid create request sent twice, to the same service or
    one to each: the first is answered with 201, the second with 400, the
    second leaves the table of the first, and that table holds exactly one
    row of the name. *)
Theorem create_twice nt str_exc (s1 s2 : service) (db : table)
    (m : gmap string json) (n : string) :
  valid_create m = true -> m !! "name" = Some (JStr n) ->
  (forall r, r ∈ db -> Row.name r <> SqlText n) ->
  exists db1,
    serve nt str_exc s1 None db (POST_add_cafe (JObj m)) =
      (Jsonify 201 (JObj {[ "message" := JStr "Cafe added successfully" ]}), db1) /\
    status_code (serve nt str_exc s2 None db1 (POST_add_cafe (JObj m))).1 = 400 /\
    (serve nt str_exc s2 None db1 (POST_add_cafe (JObj m))).2 = db1 /\
    length (named n db1) = 1%nat.
Proof.
  intros Hvalid Hname Hfresh.
  destruct (valid_create_outcome nt str_exc s1 db m n Hvalid Hname)
    as (Hn & [(_ & H1) | ((r & Hr & Hrn) & _)]); [|destruct (Hfresh r Hr Hrn)].
  exists (db ++ [requested_row nt db m]). split; [exact H1|].
  assert (Hin : requested_row nt db m ∈ db ++ [requested_row nt db m])
    by (apply elem_of_app; right; left).
  destruct (valid_create_outcome nt str_exc s2 (db ++ [requested_row nt db m]) m n
              Hvalid Hname) as (_ & [(Hfresh2 & _) | (_ & d & ->)]).
  - destruct (Hfresh2 _ Hin Hn).
  - repeat split. rewrite named_app, (named_nil _ _ Hfresh).
    unfold named. rewrite filter_cons, decide_True by exact Hn. reflexivity.
Qed.

Lemma create_twice_witness :
  valid_create blue_bottle = true /\
  blue_bottle !! "name" = Some (JStr "Blue Bottle") /\
  (forall r, r ∈ [] -> Row.name r <> SqlText "Blue Bottle") /\
  exists db1,
    serve no_numeric_text plain_str_exc sqlite3_service None []
      (POST_add_cafe (JObj blue_bottle)) =
      (Jsonify 201 (JObj {[ "message" := JStr "Cafe added successfully" ]}), db1) /\
    status_code (serve no_numeric_text plain_str_exc sqlalchemy_service None db1
                   (POST_add_cafe (JObj blue_bottle))).1 = 400 /\
    (serve no_numeric_text plain_str_exc sqlalchemy_service None db1
       (POST_add_cafe (JObj blue_bottle))).2 = db1 /\
    length (named "Blue Bottle" db1) = 1%nat.
Proof.
  assert (Hvalid : valid_create blue_bottle = true) by (vm_compute; reflexivity).
  assert (Hname : blue_bottle !! "name" = Some (JStr "Blue Bottle"))
    by (vm_compute; reflexivity).
  assert (Hfresh : forall r : Row.t, r ∈ [] -> Row.name r <> SqlText "Blue Bottle")
    by (intros r Hr; inversion Hr).
  repeat (split; [assumption|]).
  exact (create_twice no_numeric_text plain_str_exc sqlite3_service sqlalchemy_service
           [] blue_bottle "Blue Bottle" Hvalid Hname Hfresh).
Defined.

(** X10. A valid create request does not change what the lookup of any
    other name answers, whether it is accepted or not and whichever service
    handles which request. *)
Theorem create_keeps_other_lookups nt str_exc (s s' : service) (db : table)
    (m : gmap string json) (n n' : string) :
  valid_create m = true -> m !! "name" = Some (JStr n) -> n' <> n ->
  (serve nt str_exc s' None (serve nt str_exc s None db (POST_add_cafe (JObj m))).2
     (GET_cafe n')).1 =
  (serve nt str_exc s' None db (GET_cafe n')).1.
Proof.
  intros Hvalid Hname Hne.
  destruct (valid_create_outcome nt str_exc s db m n Hvalid Hname)
    as (Hn & [(_ & ->) | (_ & d & ->)]); cbn [snd]; [|reflexivity].
  rewrite !get_cafe_by_name_named, named_app. cbn [fst].
  assert (E : named n' [requested_row nt db m] = []).
  { apply named_nil. intros r Hr. apply list_elem_of_singleton in Hr. subst r.
    rewrite Hn. congruence. }
  rewrite E, app_nil_r. reflexivity.
Qed.

Lemma create_keeps_other_lookups_witness :
  valid_create blue_bottle = true /\
  blue_bottle !! "name" = Some (JStr "Blue Bottle") /\ "Ritual" <> "Blue Bottle" /\
  (serve no_numeric_text plain_str_exc sqlite3_service None
     (serve no_numeric_text plain_str_exc sqlalchemy_service None [ritual_row]
        (POST_add_cafe (JObj blue_bottle))).2 (GET_cafe "Ritual")).1 =
  (serve no_numeric_text plain_str_exc sqlite3_service None [ritual_row]
     (GET_cafe "Ritual")).1.
Proof.
  assert (Hvalid : valid_create blue_bottle = true) by (vm_compute; reflexivity).
  assert (Hname : blue_bottle !! "name" = Some (JStr "Blue Bottle"))
    by (vm_compute; reflexivity).
  assert (Hne : "Ritual" <> "Blue Bottle") by discriminate.
  repeat (split; [assumption|]).
  exact (create_keeps_other_lookups no_numeric_text plain_str_exc sqlalchemy_service
           sqlite3_service [ritual_row] blue_bottle "Blue Bottle" "Ritual"
           Hvalid Hname Hne).
Defined.

(** * The web application *)

(** ** The body the form is turned into *)

Lemma new_cafe_data_field (form : gmap string string) :
  (forall k, k ∈ text_keys ++ optional_keys ->
     WebApp.new_cafe_data form !! k = Some (WebApp.form_get form k)) /\
  (forall k, k ∈ flag_keys ->
     WebApp.new_cafe_data form !! k = Some (WebApp.form_yes form k)).
Proof. split; intros k Hk; each_key Hk; reflexivity. Qed.

Lemma new_cafe_data_present (form : gmap string string) :
  Forall (fun k => is_Some (WebApp.new_cafe_data form !! k)) required_keys.
Proof. unfold required_keys. repeat constructor; eexists; reflexivity. Qed.

Lemma new_cafe_data_portable (form : gmap string string) :
  portable_fields (WebApp.new_cafe_data form) = true.
Proof.
  unfold portable_fields, scalar_fields.
  rewrite andb_true_iff. split; apply forallb_forall; intros k Hk;
    apply list_elem_of_In in Hk.
  - destruct (new_cafe_data_field form) as [Ht Hf].
    assert (Hcases : k ∈ text_keys ++ optional_keys \/ k ∈ flag_keys)
      by (each_key Hk;
          first [ solve [left; unfold text_keys, optional_keys; cbn [app];
                         repeat constructor]
                | solve [right; unfold flag_keys; repeat constructor] ]).
    destruct Hcases as [Hk' | Hk'].
    + rewrite (Ht k Hk'). unfold WebApp.form_get. destruct (form !! k); reflexivity.
    + rewrite (Hf k Hk'). reflexivity.
  - rewrite (proj2 (new_cafe_data_field form) k Hk). reflexivity.
Qed.

Lemma new_cafe_data_valid (form : gmap string string) :
  Forall (fun k => is_Some (form !! k)) text_keys ->
  valid_create (WebApp.new_cafe_data form) = true.
Proof.
  intros H. destruct (new_cafe_data_field form) as [Ht Hf].
  unfold valid_create. rewrite !andb_true_iff. split; [split|];
    apply forallb_forall; intros k Hk; apply list_elem_of_In in Hk.
  - rewrite Ht by (apply elem_of_app; left; exact Hk).
    rewrite Forall_forall in H. destruct (H k Hk) as [v Hv].
    unfold WebApp.form_get. rewrite Hv. reflexivity.
  - rewrite (Hf k Hk). reflexivity.
  - rewrite Ht by (apply elem_of_app; right; exact Hk).
    unfold WebApp.form_get. destruct (form !! k); reflexivity.
Qed.

(** X11. Whatever the form holds, the body the web application sends has
    all ten keys, so it passes the key check of either service: the answer
    is never "Missing required fields".  A field the form lacks is sent as
    null, a flag as a boolean. *)
Theorem web_body_passes_validation nt str_exc (s : service) (fault : option string)
    (db : table) (form : gmap string string) :
  py_all_in required_keys (JObj (WebApp.new_cafe_data form)) = Return true /\
  portable_fields (WebApp.new_cafe_data form) = true /\
  (serve nt str_exc s fault db (POST_add_cafe (JObj (WebApp.new_cafe_data form)))).1 <>
    Abort 400 "Missing required fields".
Proof.
  pose proof (new_cafe_data_present form) as Hreq.
  split; [exact (py_all_in_required _ Hreq)|]. split; [apply new_cafe_data_portable|].
  destruct s; cbn [serve].
  - unfold Sqlite3.add_cafe. rewrite (py_all_in_required _ Hreq).
    destruct (Sqlite3.add_cafe_try nt fault db _) as [db'|e]; [discriminate|].
    destruct (is_IntegrityError e); discriminate.
  - unfold SqlAlchemy.add_cafe.
    rewrite (py_all_in_required _ Hreq), (Cafe_init_dict _ Hreq).
    destruct (SqlAlchemy.session_add_commit nt fault db _) as [db'|e]; discriminate.
Qed.

(** ** Submitting the form *)

Lemma add_cafe_unreadable nt str_exc (msg : string) (db : table) (m : gmap string json) :
  Forall (fun k => is_Some (m !! k)) required_keys ->
  Sqlite3.add_cafe nt (Some msg) db (JObj m) = (Unhandled (OperationalError msg), db) /\
  SqlAlchemy.add_cafe nt str_exc (Some msg) db (JObj m) =
    (Abort 400 ("Error: " ++ str_exc (OperationalError msg)), db).
Proof.
  intros Hreq. unfold Sqlite3.add_cafe, SqlAlchemy.add_cafe.
  rewrite (py_all_in_required _ Hreq), (Cafe_init_dict _ Hreq). split; reflexivity.
Qed.

Lemma add_cafe_null_rejected nt str_exc (s : service) fault (db : table)
    (m : gmap string json) (k : string) :
  Forall (fun k => is_Some (m !! k)) required_keys ->
  k ∈ required_keys -> field m k = JNull ->
  exists r, serve nt str_exc s fault db (POST_add_cafe (JObj m)) = (r, db) /\
            status_code r <> 201.
Proof.
  intros Hreq Hk Hf.
  assert (Hnull : ~ Forall (fun k => field m k <> JNull) required_keys).
  { intros HF. rewrite Forall_forall in HF. exact (HF k Hk Hf). }
  destruct s; cbn [serve].
  - unfold Sqlite3.add_cafe. rewrite (py_all_in_required _ Hreq).
    destruct (Sqlite3.add_cafe_try nt fault db (JObj m)) as [db'|e] eqn:Ht.
    + destruct (Hnull (sqlite3_add_cafe_try_not_null _ _ _ _ _ Hreq Ht)).
    + destruct (is_IntegrityError e); eexists; (split; [reflexivity | discriminate]).
  - unfold SqlAlchemy.add_cafe.
    rewrite (py_all_in_required _ Hreq), (Cafe_init_dict _ Hreq).
    destruct (SqlAlchemy.session_add_commit nt fault db _) as [db'|e] eqn:Ht.
    + destruct (Hnull (session_add_commit_not_null _ _ _ _ _ Ht)).
    + eexists. split; [reflexivity | discriminate].
Qed.

(** X12. The web application cannot tell the two services apart when a
    form is submitted: for every form, every table and whether or not the
    database can be read, [add_cafe] returns the same view, flashes the
    same message and leaves the same table with the sqlite3 service behind
    it as with the SQLAlchemy service. *)
Theorem web_add_cafe_same_with_either_service nt str_exc (fault : option string)
    (db : table) (method : WebApp.method) (form : gmap string string) :
  WebApp.add_cafe nt str_exc sqlite3_service fault db method form =
  WebApp.add_cafe nt str_exc sqlalchemy_service fault db method form.
Proof.
  destruct method; [reflexivity|]. unfold WebApp.add_cafe.
  pose proof (new_cafe_data_present form) as Hreq.
  destruct fault as [msg|].
  - cbn [serve].
    destruct (add_cafe_unreadable nt str_exc msg db _ Hreq) as [-> ->]. reflexivity.
  - rewrite !(add_cafe_portable _ _ _ _ _ Hreq (new_cafe_data_portable form)).
    destruct (insert_row _ db); reflexivity.
Qed.

(** X13. A form that lacks one of the fields name, map_url, img_url and
    location is never stored: the field is sent as null, the service
    refuses the request, and [add_cafe] flashes the failure message, shows
    the form again and leaves the table as it was, with either service
    and whether or not the database can be read. *)
Theorem web_missing_field_fails nt str_exc (api : service) (fault : option string)
    (db : table) (form : gmap string string) (k : string) :
  k ∈ text_keys -> form !! k = None ->
  WebApp.add_cafe nt str_exc api fault db WebApp.POST form =
    (WebApp.render_template "add_cafe.html" [],
     [("Failed to add cafe. Please try again.", "danger")], db).
Proof.
  intros Hk Hform.
  assert (Hf : field (WebApp.new_cafe_data form) k = JNull).
  { unfold field.
    rewrite (proj1 (new_cafe_data_field form) k) by (apply elem_of_app; left; exact Hk).
    unfold WebApp.form_get. rewrite Hform. reflexivity. }
  assert (Hk' : k ∈ required_keys)
    by (each_key Hk; unfold required_keys; repeat constructor).
  destruct (add_cafe_null_rejected nt str_exc api fault db _ k
              (new_cafe_data_present form) Hk' Hf) as (r & Hr & Hst).
  unfold WebApp.add_cafe. rewrite Hr.
  rewrite bool_decide_eq_false_2 by exact Hst. reflexivity.
Qed.

Lemma web_missing_field_fails_witness :
  "name" ∈ text_keys /\ delete "name" ritual_form !! "name" = None /\
  WebApp.add_cafe no_numeric_text plain_str_exc sqlite3_service None [blue_bottle_row]
    WebApp.POST (delete "name" ritual_form) =
    (WebApp.render_template "add_cafe.html" [],
     [("Failed to add cafe. Please try again.", "danger")], [blue_bottle_row]).
Proof.
  assert (Hk : "name" ∈ text_keys) by (unfold text_keys; repeat constructor).
  assert (Hf : delete "name" ritual_form !! "name" = None) by reflexivity.
  split; [exact Hk|]. split; [exact Hf|].
  exact (web_missing_field_fails no_numeric_text plain_str_exc sqlite3_service None
           [blue_bottle_row] _ "name" Hk Hf).
Defined.




(** X15. A form submitted under the name of an existing row is refused by
    either service: [add_cafe] flashes the failure message, shows the form
    again and leaves the table as it was. *)
Theorem web_duplicate_name_fails nt str_exc (api : service) (db : table)
    (form : gmap string string) (n : string) (r : Row.t) :
  Forall (fun k => is_Some (form !! k)) text_keys -> form !! "name" = Some n ->
  r ∈ db -> Row.name r = SqlText n ->
  WebApp.add_cafe nt str_exc api None db WebApp.POST form =
    (WebApp.render_template "add_cafe.html" [],
     [("Failed to add cafe. Please try again.", "danger")], db).
Proof.
  intros Htext Hname Hr Hrn.
  assert (Hbody : WebApp.new_cafe_data form !! "name" = Some (JStr n)).
  { rewrite (proj1 (new_cafe_data_field form))
      by (unfold text_keys; cbn [app]; repeat constructor).
    unfold WebApp.form_get. rewrite Hname. reflexivity. }
  destruct (valid_create_outcome nt str_exc api db _ n
              (new_cafe_data_valid _ Htext) Hbody)
    as (_ & [(Hfresh & _) | (_ & d & Hserve)]); [destruct (Hfresh r Hr Hrn)|].
  unfold WebApp.add_cafe. rewrite Hserve. reflexivity.
Qed.

Lemma web_duplicate_name_fails_witness :
  Forall (fun k => is_Some (ritual_form !! k)) text_keys /\
  ritual_form !! "name" = Some "Ritual" /\
  ritual_row ∈ [blue_bottle_row; ritual_row] /\
  Row.name ritual_row = SqlText "Ritual" /\
  WebApp.add_cafe no_numeric_text plain_str_exc sqlite3_service None
    [blue_bottle_row; ritual_row] WebApp.POST ritual_form =
    (WebApp.render_template "add_cafe.html" [],
     [("Failed to add cafe. Please try again.", "danger")],
     [blue_bottle_row; ritual_row]).
Proof.
  assert (Htext : Forall (fun k => is_Some (ritual_form !! k)) text_keys)
    by (unfold text_keys; repeat constructor; vm_compute; eauto).
  assert (Hname : ritual_form !! "name" = Some "Ritual") by reflexivity.
  assert (Hr : ritual_row ∈ [blue_bottle_row; ritual_row]) by (right; left).
  assert (Hrn : Row.name ritual_row = SqlText "Ritual") by reflexivity.
  repeat (split; [assumption|]).
  exact (web_duplicate_name_fails no_numeric_text plain_str_exc sqlite3_service
           [blue_bottle_row; ritual_row] ritual_form "Ritual" ritual_row
           Htext Hname Hr Hrn).
Defined.

(** ** The index page *)

(** X16. The index page is always rendered and never changes the table.
    With the database at hand it lists one object per row; when the service
    cannot read the database (it answers 500) the page shows an empty list
    instead of an error. *)
Theorem web_index_lists_or_empty nt str_exc (api : service) (db : table) :
  WebApp.index nt str_exc api None db =
    (WebApp.render_template "index.html" [("cafes", JArr (cafe_json api <$> db))], db) /\
  forall msg,
    WebApp.index nt str_exc api (Some msg) db =
      (WebApp.render_template "index.html" [("cafes", JArr [])], db).
Proof.
  split.
  - unfold WebApp.index. rewrite get_cafes_all. reflexivity.
  - intros msg. destruct api; reflexivity.
Qed.



